(* ===================================================================== *)
(*  Local crawl simulator: data models of `spider`, `spider.orb` and     *)
(*  `text_processing`, embedded as Rocq definitions, and the properties  *)
(*  of the design document checked against them.                         *)
(* ===================================================================== *)

From Stdlib Require Import ZArith Lia.
From stdpp Require Import gmap strings list fin_maps.

Local Open Scope string_scope.

(* --------------------------------------------------------------------- *)
(*  Python values, exceptions and results                                 *)
(* --------------------------------------------------------------------- *)

(** The runtime values that reach the modelled code: `None`, `str`, `int`
    and `bool` objects, and instances of any other class, identified by
    the class name and an identity. *)
Inductive pyval : Type :=
  | PyNone
  | PyStr (s : string)
  | PyInt (z : Z)
  | PyBool (b : bool)
  | PyInstance (cls : string) (id : nat).

(** The runtime types. *)
Inductive pytype : Type :=
  | NoneType
  | StrType
  | IntType
  | BoolType
  | ClassType (cls : string).

(** `type(v)`. *)
Definition py_type (v : pyval) : pytype :=
  match v with
  | PyNone => NoneType
  | PyStr _ => StrType
  | PyInt _ => IntType
  | PyBool _ => BoolType
  | PyInstance cls _ => ClassType cls
  end.

Global Instance pytype_eq_dec : EqDecision pytype.
Proof. solve_decision. Defined.

Global Instance pyval_eq_dec : EqDecision pyval.
Proof. solve_decision. Defined.

(** `v is None`. *)
Definition is_none (v : pyval) : bool :=
  match v with PyNone => true | _ => false end.

(** The exceptions the modelled code raises or lets through. *)
Inductive exn : Type :=
  | ValueError (msg : string)
  | KeyError (key : string)
  | TypeError (msg : string)
  | LookupError (msg : string)
  | OSError (msg : string).

(** Outcome of a call: a returned value or a raised exception. *)
Inductive result (A : Type) : Type :=
  | Returns (a : A)
  | Raises (e : exn).
Arguments Returns {A} a.
Arguments Raises {A} e.

Definition is_ValueError {A : Type} (r : result A) : bool :=
  match r with Raises (ValueError _) => true | _ => false end.

(* --------------------------------------------------------------------- *)
(*  text_processing.freq_models                                           *)
(* --------------------------------------------------------------------- *)

Module FreqModels.

(** `Pair`: the two attributes `_object1` and `_object2`. *)
Record Pair : Type := mkPair { _object1 : pyval; _object2 : pyval }.

(** `Pair.__init__`. *)
Definition Pair__init__ (o1 o2 : pyval) : Pair := mkPair o1 o2.

(** A `TwoGram` is a `Pair` whose constructor and setters check types. *)
Definition TwoGram : Type := Pair.

Definition same_type_msg : string := "Two tokens must be of the same type.".

(** `TwoGram.__init__`. *)
Definition TwoGram__init__ (token1 token2 : pyval) : result TwoGram :=
  if is_none token1 || is_none token2
     || bool_decide (py_type token1 = py_type token2)
  then Returns (Pair__init__ token1 token2)
  else Raises (ValueError same_type_msg).

(** `TwoGram.object1` setter. *)
Definition TwoGram_set_object1 (self : TwoGram) (o1 : pyval) : result TwoGram :=
  if is_none o1 || bool_decide (py_type (_object2 self) = py_type o1)
  then Returns (mkPair o1 (_object2 self))
  else Raises (ValueError same_type_msg).

(** `TwoGram.object2` setter. *)
Definition TwoGram_set_object2 (self : TwoGram) (o2 : pyval) : result TwoGram :=
  if is_none o2 || bool_decide (py_type (_object1 self) = py_type o2)
  then Returns (mkPair (_object1 self) o2)
  else Raises (ValueError same_type_msg).

(** `Frequency`: in the source the constructor body is `pass`, so an
    instance carries no attribute; the getters return constants. *)
Inductive Frequency : Type := FrequencyObj.

(** `Frequency.__init__(token, freq)`. *)
Definition Frequency__init__ (token : pyval) (freq : Z) : Frequency := FrequencyObj.

(** `Frequency.token` getter. *)
Definition Frequency_token (self : Frequency) : pyval := PyNone.

(** `Frequency.freq` getter. *)
Definition Frequency_freq (self : Frequency) : Z := 0.

(** `Frequency.__str__`. *)
Definition Frequency__str__ (self : Frequency) : string := "".

End FreqModels.

(* --------------------------------------------------------------------- *)
(*  text_processing.freq_counter                                          *)
(* --------------------------------------------------------------------- *)

Module FreqCounter.
Import FreqModels.

(** `compute_word_freq(tokens)`; `tokens` may be `None`. *)
Definition compute_word_freq (tokens : option (list string)) : list Frequency := [].

(** `compute_twogram_freq(tokens)`; `tokens` may be `None`. *)
Definition compute_twogram_freq (tokens : option (list string)) : list Frequency := [].

(** Sum of the counts of a list of frequencies (the report's total). *)
Definition total_count (freqs : list Frequency) : Z :=
  foldr (fun f acc => Frequency_freq f + acc)%Z 0%Z freqs.

(** `list(map(str, freqs))`. *)
Definition render (freqs : list Frequency) : list string :=
  map Frequency__str__ freqs.

(** The inputs of the two documented examples. *)
Definition word_example : list string :=
  ["this"; "sentence"; "repeats"; "the"; "word"; "sentence"].

Definition twogram_example : list string :=
  ["you"; "think"; "you"; "know"; "how"; "you"; "think"].

End FreqCounter.

(* --------------------------------------------------------------------- *)
(*  spider.spider_models                                                  *)
(* --------------------------------------------------------------------- *)

Module SpiderModels.

(** ** Documents and fingerprints *)

Section Doc.

(** The fingerprint class is abstract in `spider_models` (`SpiderDocFP`)
    and left to the implementing package: its objects, their `__eq__`
    and their `__hash__` are parameters here, as is the hash of `None`. *)
Context {FP : Type}.
Variable fp_eq : FP -> FP -> bool.
Variable fp_hash : FP -> Z.
Variable none_hash : Z.

(** The function of the implementing class that hashes a content string
    into a fingerprint. *)
Variable compute_fp : string -> FP.

(** Attributes of a `SpiderDoc` instance. *)
Record SpiderDoc : Type := mkDoc {
  doc_iid : Z;
  _title : option string;
  _content : string;
  _fingerprint : option FP
}.

(** `SpiderDoc.__init__`: the class attribute `SpiderDoc._iid` is
    threaded explicitly; the new counter value is returned with the
    instance. *)
Definition SpiderDoc__init__ (cls_iid : Z) (content : string)
    (title : option string) : SpiderDoc * Z :=
  let cls_iid' := (cls_iid + 1)%Z in
  (mkDoc cls_iid' title content None, cls_iid').

(** Modelled from the spec: the abstract hook `_compute_fingerprint` has
    no body in the source; following section 4.1 and the class docstring
    it hashes `content` and stores the result in `_fingerprint`. *)
Definition _compute_fingerprint (self : SpiderDoc) : SpiderDoc :=
  mkDoc (doc_iid self) (_title self) (_content self)
        (Some (compute_fp (_content self))).

(** The `fingerprint` property.  `SpiderDocFP` declares neither
    `__bool__` nor `__len__`, so a fingerprint object is truthy and
    `not self._fingerprint` holds exactly when the attribute is `None`.
    The result is the returned value, the instance after the call and
    the number of invocations of `_compute_fingerprint` the call made. *)
Definition fingerprint (self : SpiderDoc) : option FP * SpiderDoc * nat :=
  match _fingerprint self with
  | None =>
      let self' := _compute_fingerprint self in
      (_fingerprint self', self', 1)
  | Some fp => (Some fp, self, 0)
  end.

(** `hash(x)` for `x` a fingerprint or `None`. *)
Definition py_hash (x : option FP) : Z :=
  match x with Some fp => fp_hash fp | None => none_hash end.

(** `x == y` for `x`, `y` fingerprints or `None`: `None` equals only
    `None` (the tests require a fingerprint to differ from `None`). *)
Definition py_eq (x y : option FP) : bool :=
  match x, y with
  | None, None => true
  | Some a, Some b => fp_eq a b
  | _, _ => false
  end.

(** `SpiderDoc.__hash__`. *)
Definition SpiderDoc__hash__ (self : SpiderDoc) : Z * SpiderDoc * nat :=
  let '(fp, self', n) := fingerprint self in (py_hash fp, self', n).

(** `SpiderDoc.__eq__(self, other)`.  [other = None] stands for an
    argument that is `None` or not a `SpiderDoc`.  The left operand
    `self._fingerprint` is read before `other.fingerprint` is evaluated,
    so [self] is the state before the call also when both names denote
    one object.  The result carries the state of `other` after the call
    and the number of `_compute_fingerprint` invocations made on it. *)
Definition SpiderDoc__eq__ (self : SpiderDoc) (other : option SpiderDoc)
    : bool * option SpiderDoc * nat :=
  match other with
  | None => (false, None, 0)
  | Some o =>
      let lhs := _fingerprint self in
      let '(rhs, o', n) := fingerprint o in
      (py_eq lhs rhs, Some o', n)
  end.

(** The operations of the class a client can apply to one document. *)
Inductive doc_op : Type :=
  | OpFingerprint                         (* d.fingerprint *)
  | OpHash                                (* hash(d) *)
  | OpEqLeft (other : option SpiderDoc)   (* d == other, another object *)
  | OpEqRight (left : SpiderDoc)          (* left == d, another object *)
  | OpEqSelf                              (* d == d *)
  | OpGetters.                            (* d.iid, d.title, d.content *)

(** Effect of one operation on the observed document, with the number
    of `_compute_fingerprint` invocations made on that document. *)
Definition run_op (op : doc_op) (d : SpiderDoc) : SpiderDoc * nat :=
  match op with
  | OpFingerprint => let '(_, d', n) := fingerprint d in (d', n)
  | OpHash => let '(_, d', n) := SpiderDoc__hash__ d in (d', n)
  | OpEqLeft _ => (d, 0)
  | OpEqRight l =>
      match SpiderDoc__eq__ l (Some d) with
      | (_, Some d', n) => (d', n)
      | (_, None, n) => (d, n)
      end
  | OpEqSelf =>
      match SpiderDoc__eq__ d (Some d) with
      | (_, Some d', n) => (d', n)
      | (_, None, n) => (d, n)
      end
  | OpGetters => (d, 0)
  end.

Fixpoint run_ops (ops : list doc_op) (d : SpiderDoc) : SpiderDoc * nat :=
  match ops with
  | [] => (d, 0)
  | op :: rest =>
      let '(d1, n1) := run_op op d in
      let '(d2, n2) := run_ops rest d1 in
      (d2, n1 + n2)
  end.

(** [n] successive reads of the `fingerprint` property: the values
    read, the final instance and the total number of computations. *)
Fixpoint read_fingerprint (n : nat) (d : SpiderDoc)
    : list (option FP) * SpiderDoc * nat :=
  match n with
  | 0 => ([], d, 0)
  | S k =>
      let '(v, d1, c1) := fingerprint d in
      let '(vs, d2, c2) := read_fingerprint k d1 in
      (v :: vs, d2, c1 + c2)
  end.

End Doc.

Arguments SpiderDoc FP : clear implicits.

(** ** URIs *)

(** Attributes of a `SpiderURI` instance; `_props` is a dictionary or
    `None`. *)
Record SpiderURI : Type := mkURI {
  uri_iid : Z;
  _uri : string;
  _props : option (gmap string pyval)
}.

(** `SpiderURI.__init__`, with the class counter threaded. *)
Definition SpiderURI__init__ (cls_iid : Z) (uri : string)
    (props : option (gmap string pyval)) : SpiderURI * Z :=
  let cls_iid' := (cls_iid + 1)%Z in (mkURI cls_iid' uri props, cls_iid').

(** `SpiderURI.__eq__` on two URIs. *)
Definition SpiderURI__eq__ (self other : SpiderURI) : bool :=
  bool_decide (_uri self = _uri other).

(** ** The frontier interface *)

(** The abstract methods of `SpiderUriFrontier`.  `peek` and `pop` return
    [None] for the sentinel `None`. *)
Class SpiderUriFrontier (T : Type) : Type := {
  frontier_len : T -> nat;
  push : T -> SpiderURI -> T;
  peek : T -> option SpiderURI * T;
  pop : T -> option SpiderURI * T
}.

Section Frontier.
Context {T : Type} `{SpiderUriFrontier T}.

(** `push_all` over the positional arguments. *)
Definition push_all (self : T) (args : list SpiderURI) : T :=
  foldl push self args.

(** `SpiderUriFrontier.__init__`: [self] is the instance as the subclass
    constructor left it; `seeds` may be `None`. *)
Definition SpiderUriFrontier__init__ (self : T)
    (seeds : option (list SpiderURI)) : result T :=
  match seeds with
  | None | Some [] => Raises (ValueError "Seed list of URIs are required.")
  | Some l => Returns (push_all self l)
  end.

(** `SpiderUriFrontier.__bool__`. *)
Definition SpiderUriFrontier__bool__ (self : T) : bool :=
  (0 <? frontier_len self)%nat.
End Frontier.

(** ** The database interface *)

(** The abstract methods of `SpiderDB` over artifacts of type [A]. *)
Class SpiderDB (D A : Type) : Type := {
  db_len : D -> nat;
  db_contains : D -> A -> bool;
  db_add : D -> A -> bool * D;
  db_remove : D -> A -> bool * D
}.

Section DB.
Context {D A : Type} `{SpiderDB D A}.

(** `SpiderDB.__bool__`. *)
Definition SpiderDB__bool__ (self : D) : bool := (0 <? db_len self)%nat.

(** `add_all` over the positional arguments: the results of `add` are dropped. *)
Definition add_all (self : D) (args : list A) : D :=
  foldl (fun d item => snd (db_add d item)) self args.
End DB.

End SpiderModels.

(* --------------------------------------------------------------------- *)
(*  spider.orb.orb_models                                                 *)
(* --------------------------------------------------------------------- *)

Module OrbModels.
Import SpiderModels.

(** ** Strings *)

(** `txt in link` on two `str` objects: substring test. *)
Fixpoint str_in (txt link : string) : bool :=
  String.prefix txt link ||
  match link with
  | EmptyString => false
  | String _ rest => str_in txt rest
  end.

(** `s[-n:]` on a `str`: the last [n] characters, the whole string when it
    is shorter. *)
Definition str_tail (n : nat) (s : string) : string :=
  String.substring (String.length s - n) n s.

Definition newline : string := String (Ascii.ascii_of_nat 10) EmptyString.

(** `v[-40:]` on an arbitrary value: among the modelled values only `str`
    objects are taken to be subscriptable. *)
Definition slice_last_40 (v : pyval) : result string :=
  match v with
  | PyStr s => Returns (str_tail 40 s)
  | _ => Raises (TypeError "object is not subscriptable")
  end.

(** Truth value of `props`: `None` and the empty dictionary are falsy. *)
Definition props_truthy (props : option (gmap string pyval)) : bool :=
  match props with
  | None => false
  | Some d => negb (bool_decide (d = ∅))
  end.

(** ** The agent *)

(** The agent's configuration dictionary, after `validate_config` of the
    runner has checked that the keys are present: the entries the agent's
    own methods read. *)
Record AgentConfig : Type := mkConfig {
  external : list string;
  encoding : string;
  debug : bool
}.

(** Attributes of a `SpiderAgent` (here `OrbAgent`) instance; the two
    database references have the types of the implementing package. *)
Record OrbAgent (DocDB UriDB : Type) : Type := mkAgent {
  agent_iid : Z;
  agent_uri : SpiderURI;
  _doc_db : DocDB;
  _uri_db : UriDB;
  _config : AgentConfig
}.
Arguments agent_iid {DocDB UriDB} _.
Arguments agent_uri {DocDB UriDB} _.
Arguments _doc_db {DocDB UriDB} _.
Arguments _uri_db {DocDB UriDB} _.
Arguments _config {DocDB UriDB} _.

(** `OrbLinkProcessor.is_link_external(agent, link)`: the loop over the
    configured tokens, `is_external |= True` on each token found. *)
Definition is_link_external {DocDB UriDB : Type}
    (agent : OrbAgent DocDB UriDB) (link : string) : bool :=
  foldl (fun is_external txt =>
           if str_in txt link then is_external || true else is_external)
        false (external (_config agent)).

(** An open text file: the path and encoding it was opened with. *)
Record TextIO : Type := mkTextIO { file_name : string; file_encoding : string }.

(** What the method can observe and change outside the agent: the lines
    written to `stderr` and the calls made to `open`, oldest first. *)
Record world : Type := mkWorld {
  stderr : list string;
  open_calls : list (string * string)
}.

(** The text `print(err_str, e, file=stderr)` writes. *)
Definition open_error_report (parent_tail msg : string) : string :=
  ("Link from ..." ++ parent_tail ++ " failed to open:" ++ newline)
  ++ " " ++ msg ++ newline.

(** The argument of `format` in the handler:
    `self._uri.props['parent'][-40:] if self._uri.props else 'unknown'`. *)
Definition parent_tail (props : option (gmap string pyval)) : result string :=
  if props_truthy props then
    match props with
    | Some d =>
        match d !! "parent" with
        | Some v => slice_last_40 v
        | None => Raises (KeyError "parent")
        end
    | None => Returns "unknown"
    end
  else Returns "unknown".

(** `OrbAgent._open_uri_as_file`.  [fs_open path enc] is the outcome of
    the built-in `open(path, 'r', encoding=enc)` in the current file
    system.  Only `OSError` is caught; an exception raised inside the
    handler leaves the method. *)
Definition _open_uri_as_file {DocDB UriDB : Type}
    (fs_open : string -> string -> result TextIO)
    (self : OrbAgent DocDB UriDB) (w : world)
    : result (option TextIO) * world :=
  let uri := _uri (agent_uri self) in
  if negb (is_link_external self uri) then
    let enc := encoding (_config self) in
    let w1 := mkWorld (stderr w) (open_calls w ++ [(uri, enc)]) in
    match fs_open uri enc with
    | Returns f => (Returns (Some f), w1)
    | Raises (OSError msg) =>
        if debug (_config self) then
          match parent_tail (_props (agent_uri self)) with
          | Returns tail =>
              (Returns None,
               mkWorld (stderr w1 ++ [open_error_report tail msg])
                       (open_calls w1))
          | Raises e => (Raises e, w1)
          end
        else (Returns None, w1)
    | Raises e => (Raises e, w1)
    end
  else (Returns None, w).

(** ** The frontier *)

(** Attributes of an `OrbUriFrontier`: the `SimpleQueue` [_q], oldest
    element first (`put` appends, `get` removes the head, `qsize` is the
    length), and the lookahead slot [_next]. *)
Record OrbUriFrontier : Type := mkFrontier {
  _q : list SpiderURI;
  _next : option SpiderURI
}.

(** `OrbUriFrontier.__len__`: the conditional expression parses as
    `(self._q.qsize() + 1) if self._next else 0`; a URI object is truthy,
    so `self._next` is falsy exactly when it is `None`. *)
Definition OrbUriFrontier__len__ (self : OrbUriFrontier) : nat :=
  match _next self with
  | Some _ => length (_q self) + 1
  | None => 0
  end.

(** Refilling the lookahead slot from the queue when the slot is empty. *)
Definition refill (self : OrbUriFrontier) : OrbUriFrontier :=
  match _next self, _q self with
  | None, u :: rest => mkFrontier rest (Some u)
  | _, _ => self
  end.

(** Modelled from the spec: `push`, `peek` and `pop` of `OrbUriFrontier`
    are abstract in the source.  Section 4.2: `push` appends to the back;
    `peek` returns the front item without removing it; `pop` removes and
    returns the front item, advancing the lookahead to the new front; the
    next item to return is cached apart from the backing queue and the
    cache is refilled from the queue when it is empty.  The class
    docstring and `test_push_peek_and_pop` fix when the cache is filled:
    with the `__len__` above, one URI pushed on an empty frontier has to
    show in [_next], so `push` refills the cache as well.  On an empty
    frontier `peek` and `pop` return the sentinel `None`. *)
Definition Orb_push (self : OrbUriFrontier) (uri : SpiderURI) : OrbUriFrontier :=
  refill (mkFrontier (_q self ++ [uri]) (_next self)).

Definition Orb_peek (self : OrbUriFrontier) : option SpiderURI * OrbUriFrontier :=
  let self' := refill self in (_next self', self').

Definition Orb_pop (self : OrbUriFrontier) : option SpiderURI * OrbUriFrontier :=
  let self' := refill self in
  match _next self' with
  | Some u => (Some u, refill (mkFrontier (_q self') None))
  | None => (None, self')
  end.

Global Instance OrbUriFrontier_frontier : SpiderUriFrontier OrbUriFrontier := {
  frontier_len := OrbUriFrontier__len__;
  push := Orb_push;
  peek := Orb_peek;
  pop := Orb_pop
}.

(** `OrbUriFrontier.__init__`: the two attributes are set, then the
    constructor of the superclass runs. *)
Definition OrbUriFrontier__init__ (seeds : option (list SpiderURI))
    : result OrbUriFrontier :=
  SpiderUriFrontier__init__ (mkFrontier [] None) seeds.

(** The states a client can bring a frontier into. *)
Inductive reachable : OrbUriFrontier -> Prop :=
  | reach_init seeds f :
      OrbUriFrontier__init__ seeds = Returns f -> reachable f
  | reach_push f u : reachable f -> reachable (Orb_push f u)
  | reach_peek f : reachable f -> reachable (snd (Orb_peek f))
  | reach_pop f : reachable f -> reachable (snd (Orb_pop f)).

(** Repeated `pop()` until the sentinel comes back, at most [fuel] times:
    the URIs returned, in order. *)
Fixpoint pop_all (fuel : nat) (f : OrbUriFrontier) : list SpiderURI :=
  match fuel with
  | 0 => []
  | S k =>
      match Orb_pop f with
      | (Some u, f') => u :: pop_all k f'
      | (None, _) => []
      end
  end.

(** The URIs a frontier holds, front first: the lookahead slot, then the
    backing queue. *)
Definition pending (f : OrbUriFrontier) : list SpiderURI :=
  match _next f with
  | Some u => u :: _q f
  | None => _q f
  end.

(** The lookahead slot is empty only when the queue is. *)
Definition slot_filled (f : OrbUriFrontier) : Prop :=
  _next f = None -> _q f = [].

(** ** The URI database *)

(** Modelled from the spec: `OrbUriDB` has no body in the source.
    Section 3: a set-like collection of full URIs, equal when their
    locators are equal; `add` returns false and leaves the store unchanged
    when the item is present, `remove` returns false when it is absent. *)
Definition OrbUriDB : Type := gmap string SpiderURI.

Global Instance OrbUriDB_db : SpiderDB OrbUriDB SpiderURI := {
  db_len := fun d => size d;
  db_contains := fun d u => bool_decide (is_Some (d !! _uri u));
  db_add := fun d u =>
    match d !! _uri u with
    | Some _ => (false, d)
    | None => (true, <[_uri u := u]> d)
    end;
  db_remove := fun d u =>
    match d !! _uri u with
    | Some _ => (true, delete (_uri u) d)
    | None => (false, d)
    end
}.

(** ** Sample inputs *)

(** A file system in which no path can be opened. *)
Definition no_such_file (path enc : string) : result TextIO :=
  Raises (OSError ("[Errno 2] No such file or directory: " ++ path)).

(** The configuration of the agent tests: two external markers, debug on. *)
Definition test_config : AgentConfig :=
  mkConfig ["https://"; "http://"] "UTF-8" true.

(** A URI whose properties are a non-empty dictionary without the key
    "parent" (the properties the URI tests attach). *)
Definition uri_with_other_props : SpiderURI :=
  mkURI 1 "bad_uri.html"
        (Some (<["fake_int_prop" := PyInt 1]> (<["fake_str_prop" := PyStr "boo"]> ∅))).

Definition agent_with_other_props : OrbAgent unit OrbUriDB :=
  mkAgent unit OrbUriDB 1 uri_with_other_props tt ∅ test_config.

(** The same page referred to by a seed URI (no properties). *)
Definition agent_with_seed_uri : OrbAgent unit OrbUriDB :=
  mkAgent unit OrbUriDB 2 (mkURI 2 "bad_uri.html" None) tt ∅ test_config.

Definition empty_world : world := mkWorld [] [].

(** Two seed URIs. *)
Definition uri_a : SpiderURI := mkURI 1 "a.html" None.
Definition uri_b : SpiderURI := mkURI 2 "b.html" None.

End OrbModels.


(* --------------------------------------------------------------------- *)
(*  text_processing.freq_models: comparison of tokens                     *)
(* --------------------------------------------------------------------- *)

Module FreqCompare.
Import FreqModels.

(** The number an `int` or `bool` object stands for in a comparison. *)
Definition py_num (v : pyval) : option Z :=
  match v with
  | PyInt z => Some z
  | PyBool b => Some (if b then 1 else 0)%Z
  | _ => None
  end.

(** `t1 == t2`.  A `str` is modelled by the sequence of its characters;
    numbers compare by value (`True == 1`); instances of other classes
    have the default of `object`, identity. *)
Definition py_val_eq (t1 t2 : pyval) : bool :=
  match t1, t2 with
  | PyNone, PyNone => true
  | PyStr s, PyStr t => bool_decide (s = t)
  | PyInstance c i, PyInstance d j => bool_decide (c = d) && bool_decide (i = j)
  | _, _ =>
      match py_num t1, py_num t2 with
      | Some x, Some y => bool_decide (x = y)
      | _, _ => false
      end
  end.

Definition not_supported_msg : string :=
  "'<' not supported between instances".

(** `t1 < t2`: lexicographic on character codes for two `str` objects,
    numeric for numbers; every other pair raises `TypeError`. *)
Definition py_val_lt (t1 t2 : pyval) : result bool :=
  match t1, t2 with
  | PyStr s, PyStr t => Returns (String.ltb s t)
  | _, _ =>
      match py_num t1, py_num t2 with
      | Some x, Some y => Returns (bool_decide (x < y)%Z)
      | _, _ => Raises (TypeError not_supported_msg)
      end
  end.

(** `_compare_tokens(t1, t2)`. *)
Definition _compare_tokens (t1 t2 : pyval) : result Z :=
  if is_none t1 && is_none t2 then Returns 0%Z
  else if is_none t1 then Returns (-1)%Z
  else if is_none t2 then Returns 1%Z
  else if py_val_eq t1 t2 then Returns 0%Z
  else match py_val_lt t1 t2 with
       | Returns true => Returns (-1)%Z
       | Returns false => Returns 1%Z
       | Raises e => Raises e
       end.

(** The getters `Pair.object1` and `Pair.object2`, which `TwoGram`
    inherits when it redefines the setters: both bodies are
    `return None`. *)
Definition Pair_object1 (self : Pair) : pyval := PyNone.
Definition Pair_object2 (self : Pair) : pyval := PyNone.

(** `TwoGram._compare_token_pairs(other)`; [other = None] stands for an
    argument that is `None` or not a `TwoGram`.  The tokens are read
    through the getters; a non-zero first comparison is the result. *)
Definition _compare_token_pairs (self : TwoGram) (other : option TwoGram)
    : result Z :=
  match other with
  | None => Returns 1%Z
  | Some o =>
      match _compare_tokens (Pair_object1 self) (Pair_object1 o) with
      | Returns first_tokens =>
          if bool_decide (first_tokens <> 0%Z) then Returns first_tokens
          else _compare_tokens (Pair_object2 self) (Pair_object2 o)
      | Raises e => Raises e
      end
  end.

(** One assignment through a setter of `TwoGram`. *)
Inductive setter_call : Type :=
  | SetObject1 (o : pyval)
  | SetObject2 (o : pyval).

Definition run_setter (c : setter_call) (tg : TwoGram) : result TwoGram :=
  match c with
  | SetObject1 o => TwoGram_set_object1 tg o
  | SetObject2 o => TwoGram_set_object2 tg o
  end.

(** A sequence of assignments in which a `ValueError` is caught and the
    next assignment goes on with the unchanged object. *)
Fixpoint run_setters (cs : list setter_call) (tg : TwoGram) : TwoGram :=
  match cs with
  | [] => tg
  | c :: rest =>
      match run_setter c tg with
      | Returns tg' => run_setters rest tg'
      | Raises _ => run_setters rest tg
      end
  end.

(** Both tokens are `None` or of the type [ty]. *)
Definition tokens_typed (ty : pytype) (tg : TwoGram) : Prop :=
  (_object1 tg = PyNone \/ py_type (_object1 tg) = ty) /\
  (_object2 tg = PyNone \/ py_type (_object2 tg) = ty).

End FreqCompare.

(* --------------------------------------------------------------------- *)
(*  spider.spider_models: string forms                                    *)
(* --------------------------------------------------------------------- *)

From Stdlib Require DecimalString.

Module SpiderStr.
Import SpiderModels OrbModels.

Definition TRUNCATION_THRESHOLD : nat := 20.

(** `s[i:]`, for any integer [i]. *)
Definition py_slice_from (i : Z) (s : string) : string :=
  let len := Z.of_nat (String.length s) in
  let start := if (i <? 0)%Z then Z.max (len + i) 0 else Z.min i len in
  String.substring (Z.to_nat start) (String.length s - Z.to_nat start) s.

(** `s[:j]`, for any integer [j]. *)
Definition py_slice_to (j : Z) (s : string) : string :=
  let len := Z.of_nat (String.length s) in
  let stop := if (j <? 0)%Z then Z.max (len + j) 0 else Z.min j len in
  String.substring 0 (Z.to_nat stop) s.

(** The decimal digits of a natural number. *)
Definition digits (n : N) : string :=
  DecimalString.NilZero.string_of_uint (N.to_uint n).

Fixpoint zeros (n : nat) : string :=
  match n with 0 => "" | S k => String (Ascii.ascii_of_nat 48) (zeros k) end.

(** The format `{:09d}`: sign first, then zeros up to width 9. *)
Definition format_09d (z : Z) : string :=
  let ds := digits (Z.abs_N z) in
  if (z <? 0)%Z then "-" ++ zeros (8 - String.length ds) ++ ds
  else zeros (9 - String.length ds) ++ ds.

(** `SpiderURI.__str__`; [type_str] is `str(type(self))`. *)
Definition SpiderURI__str__ (type_str : string) (self : SpiderURI) : string :=
  let len := String.length (_uri self) in
  let is_truncate := (TRUNCATION_THRESHOLD <=? len)%nat in
  "[" ++ format_09d (uri_iid self) ++ "]: "
  ++ (if is_truncate then "..." else "    ")
  ++ py_slice_from
       (if is_truncate then - Z.of_nat TRUNCATION_THRESHOLD else Z.of_nat len)
       (_uri self)
  ++ " " ++ type_str.

(** `SpiderAgent.__str__`. *)
Definition SpiderAgent__str__ {DocDB UriDB : Type} (type_str : string)
    (self : OrbAgent DocDB UriDB) : string :=
  let uri := _uri (agent_uri self) in
  let len := String.length uri in
  let is_truncate := (TRUNCATION_THRESHOLD <=? len)%nat in
  "[" ++ format_09d (agent_iid self) ++ "]: "
  ++ py_slice_to
       (if is_truncate then Z.of_nat TRUNCATION_THRESHOLD else Z.of_nat len) uri
  ++ (if is_truncate then " ..." else "    ")
  ++ " " ++ type_str.

Definition OrbURI_type_str : string := "<class 'spider.orb.orb_models.OrbURI'>".

End SpiderStr.

Module SpiderDocLife.
Import SpiderModels.

(** What holds of a document over its life: the attributes set by the
    constructor are kept, and the cache is empty or holds the fingerprint
    of the content. *)
Definition doc_inv {FP : Type} (compute_fp : string -> FP)
    (k : Z) (c : string) (t : option string) (d : SpiderDoc FP) : Prop :=
  doc_iid d = (k + 1)%Z /\ _title d = t /\ _content d = c
  /\ (_fingerprint d = None \/ _fingerprint d = Some (compute_fp c)).

End SpiderDocLife.

(* --------------------------------------------------------------------- *)
(*  spider.orb.orb_runner                                                 *)
(* --------------------------------------------------------------------- *)

Module OrbRunner.

(** The values `json.loads` produces and the literals of the schema: a
    dictionary lists its items in insertion order, each key once. *)
Inductive json : Type :=
  | JNull
  | JBool (b : bool)
  | JNum (z : Z)
  | JStr (s : string)
  | JList (l : list json)
  | JDict (d : jdict)
with jdict : Type :=
  | DNil
  | DCons (key : string) (value : json) (rest : jdict).

Scheme json_mut := Induction for json Sort Prop
  with jdict_mut := Induction for jdict Sort Prop.

(** `key in d.keys()` and `d[key]`: the item stored under [key]. *)
Fixpoint dict_get (d : jdict) (key : string) : option json :=
  match d with
  | DNil => None
  | DCons k v rest => if bool_decide (k = key) then Some v else dict_get rest key
  end.

(** Outcome of a call that can raise `AttributeError`. *)
Inductive outcome (A : Type) : Type :=
  | Done (a : A)
  | AttributeError (msg : string).
Arguments Done {A} a.
Arguments AttributeError {A} msg.

Definition no_keys_msg : string := "object has no attribute 'keys'".

(** The line printed for a missing key. *)
Definition missing_key_msg (sub key : string) : string :=
  "Required " ++ sub ++ "key [" ++ key
  ++ "] is not present in the config file provided.".

(** What was printed before is kept when more is printed after it. *)
Definition printed_before {A : Type} (lines : list string)
    (r : outcome A * list string) : outcome A * list string :=
  (fst r, (lines ++ snd r)%list).

(** `validate_config(config, schema, sub)`: the outcome and the lines
    printed to `stderr`.  [validate_keys] is the loop over
    `schema.keys()`, entered with the current value of `is_valid`;
    `config.keys()` is evaluated in each round, so a `config` that is not
    a dictionary raises only when the schema has a key. *)
Fixpoint validate_config (config schema : json) (sub : string)
    {struct schema} : outcome bool * list string :=
  match schema with
  | JDict entries => validate_keys config entries sub true
  | _ => (AttributeError no_keys_msg, [])
  end
with validate_keys (config : json) (entries : jdict) (sub : string)
    (is_valid : bool) {struct entries} : outcome bool * list string :=
  match entries with
  | DNil => (Done is_valid, [])
  | DCons key sval rest =>
      match config with
      | JDict cfg =>
          match dict_get cfg key with
          | None =>
              printed_before [missing_key_msg sub key]
                (validate_keys config rest sub (is_valid && false))
          | Some cval =>
              match sval with
              | JDict _ =>
                  match validate_config cval sval "sub" with
                  | (Done b, out) =>
                      printed_before out
                        (validate_keys config rest sub (is_valid && true && b))
                  | (AttributeError msg, out) => (AttributeError msg, out)
                  end
              | _ => validate_keys config rest sub (is_valid && true)
              end
          end
      | _ => (AttributeError no_keys_msg, [])
      end
  end.

(** The literal `VALID_CONFIG_SCHEMA`. *)
Definition options_schema : jdict :=
  DCons "remove_stopwords" (JBool false) (DCons "stopwords_lang" (JStr "") DNil).

Definition agent_config_schema : jdict :=
  DCons "external" (JList [])
    (DCons "encoding" (JStr "")
       (DCons "parser" (JStr "")
          (DCons "tags" (JDict DNil) (DCons "debug" (JBool false) DNil)))).

Definition VALID_CONFIG_SCHEMA : json :=
  JDict (DCons "seeds" (JList [])
           (DCons "options" (JDict options_schema)
              (DCons "agent_config" (JDict agent_config_schema) DNil))).

(** The keys of a dictionary, in order. *)
Fixpoint dict_keys (d : jdict) : list string :=
  match d with
  | DNil => []
  | DCons k _ rest => k :: dict_keys rest
  end.

(** No item of the dictionary is itself a dictionary. *)
Fixpoint flat (d : jdict) : bool :=
  match d with
  | DNil => true
  | DCons _ (JDict _) _ => false
  | DCons _ _ rest => flat rest
  end.

Definition has_key (d : jdict) (key : string) : bool :=
  bool_decide (is_Some (dict_get d key)).

(** A configuration with every required key, and one whose "options"
    entry is a number. *)
Definition sample_agent_config : jdict :=
  DCons "external" (JList [JStr "https://"; JStr "http://"])
    (DCons "encoding" (JStr "UTF-8")
       (DCons "parser" (JStr "html.parser")
          (DCons "tags" (JDict (DCons "p" (JDict DNil) DNil))
             (DCons "debug" (JBool true) DNil)))).

Definition sample_config : jdict :=
  DCons "seeds" (JList [JStr "data/index.html"])
    (DCons "options"
       (JDict (DCons "remove_stopwords" (JBool true)
                 (DCons "stopwords_lang" (JStr "english") DNil)))
       (DCons "agent_config" (JDict sample_agent_config) DNil)).

Definition config_with_number_options : jdict :=
  DCons "seeds" (JList [])
    (DCons "options" (JNum 5)
       (DCons "agent_config" (JDict sample_agent_config) DNil)).

End OrbRunner.
(* ===================================================================== *)
(*  Properties                                                            *)
(* ===================================================================== *)

(* --------------------------------------------------------------------- *)
(*  Two-grams                                                             *)
(* --------------------------------------------------------------------- *)

Module FreqModelsFacts.
Import FreqModels.

Lemma is_none_true (v : pyval) : is_none v = true <-> v = PyNone.
Proof. destruct v; simpl; split; intros E; congruence. Qed.

Lemma is_none_false (v : pyval) : is_none v = false <-> v <> PyNone.
Proof. destruct v; simpl; split; intros E; congruence. Qed.

(** Only `None` has the type of `None`. *)
Lemma py_type_NoneType (v : pyval) : py_type v = NoneType <-> v = PyNone.
Proof. destruct v; simpl; split; intros E; congruence. Qed.

(** C7.  Constructing a `TwoGram` from two tokens that are both not `None`
    and have different runtime types raises `ValueError`; when a token is
    `None`, or both have the same runtime type, the constructor returns
    the pair holding the two tokens. *)
Theorem TwoGram_init_type_check (t1 t2 : pyval) :
  (t1 <> PyNone -> t2 <> PyNone -> py_type t1 <> py_type t2 ->
     TwoGram__init__ t1 t2 = Raises (ValueError same_type_msg)) /\
  (t1 = PyNone \/ t2 = PyNone \/ py_type t1 = py_type t2 ->
     TwoGram__init__ t1 t2 = Returns (mkPair t1 t2)).
Proof.
  unfold TwoGram__init__, Pair__init__. split.
  - intros N1 N2 Ty.
    apply is_none_false in N1. apply is_none_false in N2.
    rewrite N1, N2, bool_decide_eq_false_2 by assumption. reflexivity.
  - intros [E | [E | E]].
    + subst t1. reflexivity.
    + subst t2. simpl. rewrite orb_true_r. reflexivity.
    + rewrite (bool_decide_eq_true_2 _ E), orb_true_r. reflexivity.
Qed.

Lemma TwoGram_init_type_check_witness :
  TwoGram__init__ (PyInt 1) (PyStr "one") = Raises (ValueError same_type_msg) /\
  TwoGram__init__ (PyStr "one") PyNone = Returns (mkPair (PyStr "one") PyNone) /\
  TwoGram__init__ (PyStr "one") (PyStr "") = Returns (mkPair (PyStr "one") (PyStr "")).
Proof.
  split; [| split].
  - apply (proj1 (TwoGram_init_type_check (PyInt 1) (PyStr "one")));
      discriminate.
  - apply (proj2 (TwoGram_init_type_check (PyStr "one") PyNone)).
    right; left; reflexivity.
  - apply (proj2 (TwoGram_init_type_check (PyStr "one") (PyStr ""))).
    right; right; reflexivity.
Defined.

(** The constructor stores its arguments unchanged. *)
Lemma TwoGram_init_returns (t1 t2 : pyval) (tg : TwoGram) :
  TwoGram__init__ t1 t2 = Returns tg -> _object1 tg = t1 /\ _object2 tg = t2.
Proof.
  unfold TwoGram__init__, Pair__init__.
  case (is_none t1 || is_none t2 || bool_decide (py_type t1 = py_type t2));
    intros E; inversion E; subst; split; reflexivity.
Qed.

(** A setter whose opposite slot holds `None` rejects every value but
    `None`. *)
Lemma setter_opposite_none (opposite o : pyval) :
  opposite = PyNone -> o <> PyNone ->
  is_none o || bool_decide (py_type opposite = py_type o) = false.
Proof.
  intros -> No. apply is_none_false in No. rewrite No. simpl.
  apply bool_decide_eq_false_2. intros E. symmetry in E.
  apply py_type_NoneType in E. subst o. discriminate.
Qed.

(** C9.  For a `TwoGram` constructed with `None` in one slot, assigning a
    value other than `None` to the other slot raises `ValueError`: through
    the `object1` setter when the second slot is `None`, through the
    `object2` setter when the first slot is `None`. *)
Theorem TwoGram_setter_rejects_when_other_unset
    (t1 t2 : pyval) (tg : TwoGram) (o : pyval) :
  TwoGram__init__ t1 t2 = Returns tg -> o <> PyNone ->
  (t2 = PyNone ->
     TwoGram_set_object1 tg o = Raises (ValueError same_type_msg)) /\
  (t1 = PyNone ->
     TwoGram_set_object2 tg o = Raises (ValueError same_type_msg)).
Proof.
  intros Hinit No. destruct (TwoGram_init_returns _ _ _ Hinit) as [E1 E2].
  unfold TwoGram_set_object1, TwoGram_set_object2. split; intros Hn.
  - rewrite setter_opposite_none; [reflexivity | congruence | assumption].
  - rewrite setter_opposite_none; [reflexivity | congruence | assumption].
Qed.

Lemma TwoGram_setter_rejects_when_other_unset_witness :
  TwoGram_set_object1 (mkPair (PyStr "one") PyNone) (PyStr "two")
    = Raises (ValueError same_type_msg) /\
  TwoGram_set_object2 (mkPair PyNone (PyInt 1)) (PyInt 2)
    = Raises (ValueError same_type_msg).
Proof.
  split.
  - apply (proj1 (TwoGram_setter_rejects_when_other_unset
                    (PyStr "one") PyNone (mkPair (PyStr "one") PyNone)
                    (PyStr "two") eq_refl ltac:(discriminate))).
    reflexivity.
  - apply (proj2 (TwoGram_setter_rejects_when_other_unset
                    PyNone (PyInt 1) (mkPair PyNone (PyInt 1))
                    (PyInt 2) eq_refl ltac:(discriminate))).
    reflexivity.
Defined.

(** The unset slot itself accepts a value of the type of the other slot. *)
Example TwoGram_fill_unset_slot :
  TwoGram_set_object1 (mkPair PyNone (PyStr "b")) (PyStr "a")
    = Returns (mkPair (PyStr "a") (PyStr "b")).
Proof. reflexivity. Qed.

End FreqModelsFacts.

(* --------------------------------------------------------------------- *)
(*  Frequency counting                                                    *)
(* --------------------------------------------------------------------- *)

Module FreqCounterFacts.
Import FreqModels FreqCounter.

(** C2.  What the code does: `compute_word_freq` returns the empty list
    for every input, so on the documented example the rendering is empty
    instead of the five entries "sentence:2", "repeats:1", "the:1",
    "this:1", "word:1". *)
Theorem compute_word_freq_returns_nothing (tokens : option (list string)) :
  compute_word_freq tokens = [] /\
  render (compute_word_freq (Some word_example)) = [] /\
  length (render (compute_word_freq (Some word_example))) = 0.
Proof. repeat split. Qed.

(** C5.  What the code does: the counts returned by `compute_twogram_freq`
    sum to 0 for every input, also for the documented example of seven
    tokens, where six two-grams are expected. *)
Theorem compute_twogram_freq_total_is_zero (tokens : option (list string)) :
  total_count (compute_twogram_freq tokens) = 0%Z /\
  length twogram_example = 7 /\
  total_count (compute_twogram_freq (Some twogram_example)) = 0%Z.
Proof. repeat split. Qed.

End FreqCounterFacts.

(* --------------------------------------------------------------------- *)
(*  Documents and fingerprints                                            *)
(* --------------------------------------------------------------------- *)

Module SpiderDocFacts.
Import SpiderModels.

Section DocFacts.
Context {FP : Type}.
Variable fp_eq : FP -> FP -> bool.
Variable fp_hash : FP -> Z.
Variable none_hash : Z.
Variable compute_fp : string -> FP.

Local Abbreviation fingerprint := (fingerprint compute_fp).
Local Abbreviation SpiderDoc__hash__ := (SpiderDoc__hash__ fp_hash none_hash compute_fp).
Local Abbreviation SpiderDoc__eq__ := (SpiderDoc__eq__ fp_eq compute_fp).
Local Abbreviation run_op := (run_op fp_eq fp_hash none_hash compute_fp).
Local Abbreviation run_ops := (run_ops fp_eq fp_hash none_hash compute_fp).
Local Abbreviation read_fingerprint := (read_fingerprint compute_fp).

(** A fresh document has no fingerprint yet. *)
Lemma init_fingerprint_unset k c t :
  _fingerprint (fst (SpiderDoc__init__ k c t)) = (None : option FP).
Proof. reflexivity. Qed.

(** Reading the property of a document without a cached fingerprint
    computes it from the content and stores it. *)
Lemma fingerprint_unset (d : SpiderDoc FP) :
  _fingerprint d = None ->
  fingerprint d =
    (Some (compute_fp (_content d)), _compute_fingerprint compute_fp d, 1).
Proof. unfold fingerprint. intros ->. reflexivity. Qed.

(** Reading the property of a document with a cached fingerprint
    returns the cache and changes nothing. *)
Lemma fingerprint_cached (d : SpiderDoc FP) (v : FP) :
  _fingerprint d = Some v -> fingerprint d = (Some v, d, 0).
Proof. unfold fingerprint. intros ->. reflexivity. Qed.

(** After a read the attribute holds the value that was returned. *)
Lemma fingerprint_stores (d : SpiderDoc FP) :
  _fingerprint (snd (fst (fingerprint d))) = fst (fst (fingerprint d))
  /\ exists v, fst (fst (fingerprint d)) = Some v.
Proof.
  unfold fingerprint. destruct (_fingerprint d) eqn:E; simpl; eauto.
Qed.

(** No operation changes or recomputes a cached fingerprint. *)
Lemma run_op_cached (op : doc_op) (d : SpiderDoc FP) (v : FP) :
  _fingerprint d = Some v -> run_op op d = (d, 0).
Proof.
  intros E. destruct op; simpl; try reflexivity.
  - rewrite (fingerprint_cached _ _ E). reflexivity.
  - unfold SpiderModels.SpiderDoc__hash__.
    rewrite (fingerprint_cached _ _ E). reflexivity.
  - rewrite (fingerprint_cached _ _ E). reflexivity.
  - rewrite (fingerprint_cached _ _ E). reflexivity.
Qed.

Lemma run_ops_cached (ops : list doc_op) (d : SpiderDoc FP) (v : FP) :
  _fingerprint d = Some v -> run_ops ops d = (d, 0).
Proof.
  intros E. induction ops as [| op rest IH]; simpl; [reflexivity |].
  rewrite (run_op_cached _ _ _ E), IH. reflexivity.
Qed.

(** One operation computes at most once, and if it computes, the
    fingerprint is cached afterwards. *)
Lemma run_op_step (op : doc_op) (d : SpiderDoc FP) :
  run_op op d = (d, 0) \/
  (snd (run_op op d) = 1 /\ exists v, _fingerprint (fst (run_op op d)) = Some v).
Proof.
  destruct (_fingerprint d) as [v |] eqn:E.
  - left. exact (run_op_cached _ _ _ E).
  - destruct op; simpl; auto;
      unfold SpiderModels.SpiderDoc__hash__;
      rewrite (fingerprint_unset _ E); simpl; right; eauto.
Qed.

Lemma run_ops_at_most_once (ops : list doc_op) (d : SpiderDoc FP) :
  snd (run_ops ops d) <= 1.
Proof.
  revert d. induction ops as [| op rest IH]; intros d; simpl; [lia |].
  destruct (run_op_step op d) as [E | [E [v Hv]]].
  - rewrite E. specialize (IH d). destruct (run_ops rest d). simpl in *. lia.
  - destruct (run_op op d) as [d1 n1]. simpl in *. subst n1.
    rewrite (run_ops_cached rest _ _ Hv). simpl. lia.
Qed.

Lemma read_fingerprint_cached (n : nat) (d : SpiderDoc FP) (v : FP) :
  _fingerprint d = Some v ->
  read_fingerprint n d = (replicate n (Some v), d, 0).
Proof.
  intros E. induction n as [| n IH]; simpl; [reflexivity |].
  rewrite (fingerprint_cached _ _ E), IH. reflexivity.
Qed.

(** C4.  Starting from a newly constructed document, any number of
    reads of `fingerprint` invokes `_compute_fingerprint` exactly once,
    in the first read; all reads return the same value, which is the
    one cached; afterwards no sequence of operations on the document
    recomputes or changes it.  From any state, a sequence of operations
    computes at most once. *)
Theorem fingerprint_computed_once
    (k : Z) (c : string) (t : option string) (n : nat)
    (ops : list doc_op) (d : SpiderDoc FP) :
  let d0 := fst (SpiderDoc__init__ k c t) in
  let d1 := snd (fst (read_fingerprint (S n) d0)) in
  snd (fingerprint d0) = 1
  /\ snd (read_fingerprint (S n) d0) = 1
  /\ fst (fst (read_fingerprint (S n) d0)) = replicate (S n) (Some (compute_fp c))
  /\ _fingerprint d1 = Some (compute_fp c)
  /\ run_ops ops d1 = (d1, 0)
  /\ read_fingerprint n d1 = (replicate n (Some (compute_fp c)), d1, 0)
  /\ snd (run_ops ops d) <= 1.
Proof.
  assert (E1 : _fingerprint
                 (_compute_fingerprint compute_fp (fst (SpiderDoc__init__ k c t)))
               = Some (compute_fp c)) by reflexivity.
  assert (R : read_fingerprint (S n) (fst (SpiderDoc__init__ k c t)) =
              (replicate (S n) (Some (compute_fp c)),
               _compute_fingerprint compute_fp (fst (SpiderDoc__init__ k c t)),
               1)).
  { cbn [SpiderModels.read_fingerprint].
    rewrite (fingerprint_unset _ (init_fingerprint_unset k c t)).
    rewrite (read_fingerprint_cached n _ _ E1). reflexivity. }
  cbv zeta. rewrite R. cbn [fst snd].
  repeat split.
  - exact (run_ops_cached ops _ _ E1).
  - exact (read_fingerprint_cached n _ _ E1).
  - exact (run_ops_at_most_once ops d).
Qed.

(** Once the left operand has its fingerprint cached, equality is the
    equality of the two fingerprints. *)
Lemma SpiderDoc_eq_cached (a b : SpiderDoc FP) (v : FP) :
  _fingerprint a = Some v ->
  fst (fst (SpiderDoc__eq__ a (Some b)))
    = py_eq fp_eq (fst (fst (fingerprint a))) (fst (fst (fingerprint b))).
Proof.
  intros E. unfold SpiderModels.SpiderDoc__eq__.
  rewrite (fingerprint_cached _ _ E).
  destruct (fingerprint b) as [[rhs b'] m]. simpl. rewrite E. reflexivity.
Qed.

(** C1.  What the code does for two newly constructed documents with the
    same content: their fingerprints are the same value and their
    hashes agree, yet `a == b` is false, because `__eq__` compares the
    attribute `_fingerprint` of its left operand, still `None`, with
    the fingerprint of the right operand.  The same comparison is true
    once the fingerprint of the left operand has been read. *)
Theorem SpiderDoc_eq_before_first_read
    (k1 k2 : Z) (c : string) (t1 t2 : option string) :
  let a := fst (SpiderDoc__init__ k1 c t1) in
  let b := fst (SpiderDoc__init__ k2 c t2) in
  let a' := snd (fst (fingerprint a)) in
  fst (fst (fingerprint a)) = fst (fst (fingerprint b))
  /\ fst (fst (SpiderDoc__hash__ a)) = fst (fst (SpiderDoc__hash__ b))
  /\ fst (fst (SpiderDoc__eq__ a (Some b))) = false
  /\ fst (fst (SpiderDoc__eq__ a (Some a))) = false
  /\ fst (fst (SpiderDoc__eq__ a' (Some b))) = fp_eq (compute_fp c) (compute_fp c).
Proof. repeat split. Qed.

End DocFacts.

End SpiderDocFacts.

(* --------------------------------------------------------------------- *)
(*  The frontier                                                          *)
(* --------------------------------------------------------------------- *)

Module FrontierFacts.
Import SpiderModels OrbModels.

Lemma refill_slot_filled (f : OrbUriFrontier) : slot_filled (refill f).
Proof.
  destruct f as [[| u rest] [v |]]; unfold slot_filled; simpl; congruence.
Qed.

Lemma refill_pending (f : OrbUriFrontier) : pending (refill f) = pending f.
Proof. destruct f as [[| u rest] [v |]]; reflexivity. Qed.

Lemma refill_id (f : OrbUriFrontier) : slot_filled f -> refill f = f.
Proof.
  destruct f as [[| u rest] [v |]]; unfold slot_filled; simpl;
    intros Hs; try reflexivity.
  specialize (Hs eq_refl). discriminate.
Qed.

Lemma push_slot_filled f u : slot_filled (Orb_push f u).
Proof. apply refill_slot_filled. Qed.

Lemma peek_slot_filled f : slot_filled (snd (Orb_peek f)).
Proof. apply refill_slot_filled. Qed.

Lemma pop_slot_filled f : slot_filled (snd (Orb_pop f)).
Proof.
  unfold Orb_pop. destruct (_next (refill f)) eqn:E; simpl;
    apply refill_slot_filled.
Qed.

Lemma push_all_slot_filled (l : list SpiderURI) (f : OrbUriFrontier) :
  slot_filled f -> slot_filled (push_all f l).
Proof.
  unfold push_all. revert f.
  induction l as [| u l IH]; intros f Hf; simpl; [assumption |].
  apply IH, push_slot_filled.
Qed.

(** Every state a client can reach keeps the slot filled. *)
Lemma reachable_slot_filled (f : OrbUriFrontier) :
  reachable f -> slot_filled f.
Proof.
  induction 1 as [seeds f Hinit | f u _ _ | f _ _ | f _ _].
  - unfold OrbUriFrontier__init__, SpiderUriFrontier__init__ in Hinit.
    destruct seeds as [[| u l] |]; try discriminate.
    inversion Hinit; subst. apply push_all_slot_filled.
    unfold slot_filled; reflexivity.
  - apply push_slot_filled.
  - apply peek_slot_filled.
  - apply pop_slot_filled.
Qed.

(** With the slot filled, `__len__` counts the pending URIs. *)
Lemma len_pending (f : OrbUriFrontier) :
  slot_filled f -> OrbUriFrontier__len__ f = length (pending f).
Proof.
  destruct f as [q [v |]]; unfold slot_filled, OrbUriFrontier__len__, pending;
    simpl; intros Hs.
  - lia.
  - rewrite (Hs eq_refl). reflexivity.
Qed.

(** Popping until the sentinel returns the pending URIs in order. *)
Lemma pop_all_pending (fuel : nat) (f : OrbUriFrontier) :
  slot_filled f -> length (pending f) <= fuel -> pop_all fuel f = pending f.
Proof.
  revert f. induction fuel as [| k IH]; intros f Hs Hlen.
  - destruct (pending f); [reflexivity | simpl in Hlen; lia].
  - simpl. unfold Orb_pop. rewrite (refill_id _ Hs).
    destruct f as [q [u |]]; simpl in *.
    + unfold pending in Hlen; simpl in Hlen.
      rewrite IH.
      * rewrite refill_pending. reflexivity.
      * apply refill_slot_filled.
      * rewrite refill_pending. unfold pending; simpl. lia.
    + unfold slot_filled in Hs; simpl in Hs. rewrite (Hs eq_refl).
      reflexivity.
Qed.

(** C3.  In every state reachable from the constructor by `push`, `peek`
    and `pop`, `len()` is the number of URIs that repeated calls of
    `pop()` return before the frontier is exhausted; these are the URI in
    the lookahead slot followed by the items of the backing queue. *)
Theorem len_counts_pending_pops (f : OrbUriFrontier) (fuel : nat) :
  reachable f -> OrbUriFrontier__len__ f <= fuel ->
  length (pop_all fuel f) = OrbUriFrontier__len__ f
  /\ pop_all fuel f = pending f.
Proof.
  intros Hr Hfuel. pose proof (reachable_slot_filled f Hr) as Hs.
  rewrite (len_pending f Hs) in *.
  rewrite (pop_all_pending fuel f Hs Hfuel). split; reflexivity.
Qed.

Lemma len_counts_pending_pops_witness :
  length (pop_all 5 (mkFrontier [uri_b] (Some uri_a)))
    = OrbUriFrontier__len__ (mkFrontier [uri_b] (Some uri_a))
  /\ pop_all 5 (mkFrontier [uri_b] (Some uri_a)) = [uri_a; uri_b].
Proof.
  apply (len_counts_pending_pops (mkFrontier [uri_b] (Some uri_a)) 5).
  - apply (reach_init (Some [uri_a; uri_b])). reflexivity.
  - cbn. lia.
Defined.

(** `__len__` alone is exact only under the invariant: with the slot
    empty and an item queued it answers 0 while one `pop()` succeeds. *)
Example len_needs_slot_filled :
  OrbUriFrontier__len__ (mkFrontier [uri_a] None) = 0
  /\ pop_all 1 (mkFrontier [uri_a] None) = [uri_a].
Proof. split; reflexivity. Qed.

(** Seeding an Orb frontier: the first seed goes to the lookahead slot,
    the others to the queue, in order. *)
Lemma Orb_push_filled (q : list SpiderURI) (u v : SpiderURI) :
  Orb_push (mkFrontier q (Some u)) v = mkFrontier (q ++ [v]) (Some u).
Proof. reflexivity. Qed.

Lemma foldl_push_filled (l q : list SpiderURI) (u : SpiderURI) :
  foldl Orb_push (mkFrontier q (Some u)) l = mkFrontier (q ++ l) (Some u).
Proof.
  revert q. induction l as [| v l IH]; intros q.
  - rewrite app_nil_r. reflexivity.
  - cbn [foldl]. rewrite Orb_push_filled, IH, <- app_assoc. reflexivity.
Qed.

Lemma push_all_filled (l q : list SpiderURI) (u : SpiderURI) :
  push_all (mkFrontier q (Some u)) l = mkFrontier (q ++ l) (Some u).
Proof. exact (foldl_push_filled l q u). Qed.

(** The frontier test of the repository, `test_push_peek_and_pop`, on two
    URIs: it holds of the modelled operations. *)
Example frontier_push_peek_pop :
  exists f0, OrbUriFrontier__init__ (Some [uri_a]) = Returns f0
  /\ fst (Orb_peek f0) = Some uri_a
  /\ SpiderUriFrontier__bool__ (snd (Orb_pop f0)) = false
  /\ OrbUriFrontier__len__ (snd (Orb_pop f0)) = 0
  /\ OrbUriFrontier__len__ (Orb_push (snd (Orb_pop f0)) uri_a) = 1
  /\ fst (Orb_peek (Orb_push (snd (Orb_pop f0)) uri_a)) = Some uri_a
  /\ OrbUriFrontier__len__ (Orb_push (Orb_push (snd (Orb_pop f0)) uri_a) uri_b) = 2
  /\ fst (Orb_peek (Orb_push (Orb_push (snd (Orb_pop f0)) uri_a) uri_b)) = Some uri_a
  /\ pop_all 2 (Orb_push (Orb_push (snd (Orb_pop f0)) uri_a) uri_b) = [uri_a; uri_b].
Proof. eexists. repeat split. Qed.

(** C6.  The constructor of a frontier raises `ValueError` when `seeds` is
    `None` or the empty list, for every implementation of the interface
    and for `OrbUriFrontier`; for a non-empty list it returns the frontier
    on which the seeds were pushed in order. *)
Theorem frontier_init_requires_seeds
    {T : Type} `{SpiderUriFrontier T} (self : T)
    (u : SpiderURI) (rest : list SpiderURI) :
  is_ValueError (SpiderUriFrontier__init__ self None) = true
  /\ is_ValueError (SpiderUriFrontier__init__ self (Some [])) = true
  /\ SpiderUriFrontier__init__ self (Some (u :: rest))
       = Returns (push_all self (u :: rest))
  /\ is_ValueError (OrbUriFrontier__init__ None) = true
  /\ is_ValueError (OrbUriFrontier__init__ (Some [])) = true
  /\ OrbUriFrontier__init__ (Some (u :: rest))
       = Returns (mkFrontier rest (Some u)).
Proof.
  repeat split.
  unfold OrbUriFrontier__init__, SpiderUriFrontier__init__.
  f_equal. change (push_all (mkFrontier [] None) (u :: rest))
    with (push_all (mkFrontier [] (Some u)) rest).
  apply push_all_filled.
Qed.

(** C10.  For every database and every frontier, `bool(x)` is
    `len(x) > 0`: an empty collection is falsy and a non-empty one truthy
    (the docstring of `SpiderDB.__bool__` has it the other way round). *)
Theorem bool_is_len_positive
    {D A : Type} `{SpiderDB D A} {T : Type} `{SpiderUriFrontier T}
    (db : D) (f : T) (orb : OrbUriFrontier) :
  SpiderDB__bool__ db = bool_decide (0 < db_len db)
  /\ SpiderUriFrontier__bool__ f = bool_decide (0 < frontier_len f)
  /\ SpiderDB__bool__ db = negb (bool_decide (db_len db = 0))
  /\ SpiderUriFrontier__bool__ orb = bool_decide (0 < OrbUriFrontier__len__ orb)
  /\ SpiderDB__bool__ (∅ : OrbUriDB) = false.
Proof.
  assert (E : forall n : nat, (0 <? n)%nat = bool_decide (0 < n)).
  { intros n. destruct (Nat.ltb_spec 0 n).
    - rewrite bool_decide_eq_true_2; [reflexivity | lia].
    - rewrite bool_decide_eq_false_2; [reflexivity | lia]. }
  unfold SpiderDB__bool__, SpiderUriFrontier__bool__.
  repeat split; try apply E.
  destruct (db_len db); reflexivity.
Qed.

End FrontierFacts.

(* --------------------------------------------------------------------- *)
(*  Opening the page of an agent                                          *)
(* --------------------------------------------------------------------- *)

Module OrbAgentFacts.
Import SpiderModels OrbModels.

Section OpenUri.
Context {DocDB UriDB : Type}.
Variable fs_open : string -> string -> result TextIO.
Variable self : OrbAgent DocDB UriDB.
Variable w : world.

Example str_in_examples :
  str_in "" "abc" = true /\ str_in "http://" "see http://x" = true
  /\ str_in "https://" "bad_uri.html" = false /\ str_in "abc" "ab" = false.
Proof. repeat split. Qed.

(** A locator is external exactly when one of the configured tokens
    occurs in it. *)
Lemma is_link_external_existsb (link : string) :
  is_link_external self link
    = existsb (fun txt => str_in txt link) (external (_config self)).
Proof.
  unfold is_link_external.
  assert (G : forall l acc,
             foldl (fun is_external txt =>
                      if str_in txt link then is_external || true
                      else is_external) acc l
             = acc || existsb (fun txt => str_in txt link) l).
  { induction l as [| txt l IH]; intros acc; simpl.
    - rewrite orb_false_r. reflexivity.
    - rewrite IH. destruct (str_in txt link), acc; reflexivity. }
  rewrite G. reflexivity.
Qed.

(** External URI: `open` is not called, nothing is printed, `None` is
    returned. *)
Lemma open_external :
  is_link_external self (_uri (agent_uri self)) = true ->
  _open_uri_as_file fs_open self w = (Returns None, w).
Proof. unfold _open_uri_as_file. intros ->. reflexivity. Qed.

(** `OSError` with the debug flag off: swallowed, nothing printed. *)
Lemma open_oserror_quiet (msg : string) :
  is_link_external self (_uri (agent_uri self)) = false ->
  fs_open (_uri (agent_uri self)) (encoding (_config self))
    = Raises (OSError msg) ->
  debug (_config self) = false ->
  fst (_open_uri_as_file fs_open self w) = Returns None
  /\ stderr (snd (_open_uri_as_file fs_open self w)) = stderr w.
Proof.
  unfold _open_uri_as_file. intros -> -> ->. split; reflexivity.
Qed.

(** `OSError` with the debug flag on, when the formatting of the report
    succeeds: swallowed, one report printed. *)
Lemma open_oserror_reported (msg tail : string) :
  is_link_external self (_uri (agent_uri self)) = false ->
  fs_open (_uri (agent_uri self)) (encoding (_config self))
    = Raises (OSError msg) ->
  debug (_config self) = true ->
  parent_tail (_props (agent_uri self)) = Returns tail ->
  fst (_open_uri_as_file fs_open self w) = Returns None
  /\ stderr (snd (_open_uri_as_file fs_open self w))
       = (stderr w ++ [open_error_report tail msg])%list.
Proof.
  unfold _open_uri_as_file. intros -> -> -> ->. split; reflexivity.
Qed.

(** The report can be formatted when the properties are `None`, empty,
    or hold a string under "parent". *)
Lemma parent_tail_returns (props : option (gmap string pyval)) :
  (props = None \/ props = Some ∅ \/
   exists d s, props = Some d /\ d !! "parent" = Some (PyStr s)) ->
  exists tail, parent_tail props = Returns tail.
Proof.
  intros [-> | [-> | (d & s & -> & Hd)]]; unfold parent_tail; simpl.
  - eauto.
  - rewrite bool_decide_eq_true_2 by reflexivity. simpl. eauto.
  - rewrite Hd. simpl. destruct (negb (bool_decide (d = ∅))); eauto.
Qed.

(** `OSError` with the debug flag on and non-empty properties without
    "parent": the handler itself raises `KeyError`. *)
Lemma open_oserror_handler_raises (msg : string) (d : gmap string pyval) :
  is_link_external self (_uri (agent_uri self)) = false ->
  fs_open (_uri (agent_uri self)) (encoding (_config self))
    = Raises (OSError msg) ->
  debug (_config self) = true ->
  _props (agent_uri self) = Some d -> d <> ∅ -> d !! "parent" = None ->
  fst (_open_uri_as_file fs_open self w) = Raises (KeyError "parent").
Proof.
  unfold _open_uri_as_file, parent_tail. intros -> -> -> -> Hne ->.
  simpl. rewrite bool_decide_eq_false_2 by assumption. reflexivity.
Qed.

End OpenUri.

(** The page of a seed URI that cannot be opened: the error is reported
    and `None` is returned, as the docstring says. *)
Example open_seed_uri_missing :
  _open_uri_as_file no_such_file agent_with_seed_uri empty_world
  = (Returns None,
     mkWorld
       [open_error_report "unknown"
          "[Errno 2] No such file or directory: bad_uri.html"]
       [("bad_uri.html", "UTF-8")]).
Proof. reflexivity. Qed.

(** C8.  What the code does for an agent with the debug flag set whose
    URI is local, cannot be opened (`OSError`) and carries a non-empty
    property dictionary without the key "parent": the handler evaluates
    `self._uri.props['parent']`, so the method raises `KeyError` instead
    of returning `None`, and nothing is reported. *)
Theorem open_uri_as_file_raises_from_handler :
  is_link_external agent_with_other_props "bad_uri.html" = false
  /\ no_such_file "bad_uri.html" "UTF-8"
       = Raises (OSError "[Errno 2] No such file or directory: bad_uri.html")
  /\ _open_uri_as_file no_such_file agent_with_other_props empty_world
       = (Raises (KeyError "parent"), mkWorld [] [("bad_uri.html", "UTF-8")]).
Proof. repeat split; vm_compute; reflexivity. Qed.

End OrbAgentFacts.

(* --------------------------------------------------------------------- *)
(*  Comparison of tokens; assignments to a two-gram                       *)
(* --------------------------------------------------------------------- *)

Module FreqCompareFacts.
Import FreqModels FreqCompare.


Lemma ascii_compare_lt_trans (a b c : Ascii.ascii) :
  Ascii.compare a b = Lt -> Ascii.compare b c = Lt -> Ascii.compare a c = Lt.
Proof.
  unfold Ascii.compare. rewrite !N.compare_lt_iff. lia.
Qed.

(** The order on strings is transitive. *)
Lemma string_compare_lt_trans (a b c : string) :
  String.compare a b = Lt -> String.compare b c = Lt -> String.compare a c = Lt.
Proof.
  revert b c. induction a as [| x a IH]; intros [| y b] [| z c]; simpl;
    try congruence.
  destruct (Ascii.compare x y) eqn:Exy; try discriminate;
    destruct (Ascii.compare y z) eqn:Eyz; try discriminate; intros H1 H2.
  - apply Ascii.compare_eq_iff in Exy, Eyz. subst.
    assert (R : Ascii.compare z z = Eq).
    { unfold Ascii.compare. apply N.compare_refl. }
    rewrite R. eauto.
  - apply Ascii.compare_eq_iff in Exy. subst. rewrite Eyz. reflexivity.
  - apply Ascii.compare_eq_iff in Eyz. subst. rewrite Exy. reflexivity.
  - rewrite (ascii_compare_lt_trans _ _ _ Exy Eyz). reflexivity.
Qed.



(** X1.  `_compare_tokens` puts `None` before every other value: against
    a value that is not `None` it answers -1 from the left and 1 from the
    right, without comparing anything, and 0 for two `None`. *)
Theorem compare_tokens_none_first (t : pyval) :
  t <> PyNone ->
  _compare_tokens PyNone t = Returns (-1)%Z
  /\ _compare_tokens t PyNone = Returns 1%Z
  /\ _compare_tokens PyNone PyNone = Returns 0%Z.
Proof.
  intros Hn. destruct t; try contradiction; repeat split.
Qed.

Lemma compare_tokens_none_first_witness :
  _compare_tokens PyNone (PyInstance "Other" 7) = Returns (-1)%Z
  /\ _compare_tokens (PyInstance "Other" 7) PyNone = Returns 1%Z
  /\ _compare_tokens PyNone PyNone = Returns 0%Z.
Proof.
  apply (compare_tokens_none_first (PyInstance "Other" 7)). discriminate.
Defined.



(** X3.  `_compare_tokens` returns for every pair of values that are
    `None`, two `str` or two numbers, and the answer is -1, 0 or 1, with 0
    exactly when the two values are equal; a `str` against a number
    raises `TypeError`. *)
Theorem compare_tokens_total_on_like_values (t1 t2 : pyval) (s : string) (z : Z) :
  (t1 = PyNone \/ t2 = PyNone
   \/ (py_type t1 = StrType /\ py_type t2 = StrType)
   \/ (is_Some (py_num t1) /\ is_Some (py_num t2))) ->
  (exists c, _compare_tokens t1 t2 = Returns c
             /\ (c = -1 \/ c = 0 \/ c = 1)%Z
             /\ (c = 0%Z <-> py_val_eq t1 t2 = true))
  /\ _compare_tokens (PyStr s) (PyInt z) = Raises (TypeError not_supported_msg)
  /\ _compare_tokens (PyInt z) (PyStr s) = Raises (TypeError not_supported_msg).
Proof.
  intros H. split; [| split; reflexivity].
  unfold _compare_tokens.
  destruct t1, t2; simpl in *;
    try (destruct H as [H | [H | [[H1 H2] | [[x H1] [y H2]]]]]; discriminate);
    try (eexists; split; [reflexivity |]; split; [lia |];
         split; intros; (reflexivity || discriminate));
    match goal with
    | |- context [if ?b then _ else _] => destruct b eqn:E
    end;
    try (eexists; split; [reflexivity |]; split; [lia |];
         split; intros; (reflexivity || discriminate));
    match goal with
    | |- context [if ?b then _ else _] => destruct b
    end;
    eexists; (split; [reflexivity |]); (split; [lia |]);
    split; intros; discriminate.
Qed.

Lemma compare_tokens_total_on_like_values_witness :
  (exists c, _compare_tokens (PyBool true) (PyInt 1) = Returns c
             /\ (c = -1 \/ c = 0 \/ c = 1)%Z
             /\ (c = 0%Z <-> py_val_eq (PyBool true) (PyInt 1) = true))
  /\ _compare_tokens (PyStr "1") (PyInt 1) = Raises (TypeError not_supported_msg)
  /\ _compare_tokens (PyInt 1) (PyStr "1") = Raises (TypeError not_supported_msg).
Proof.
  apply (compare_tokens_total_on_like_values (PyBool true) (PyInt 1) "1" 1).
  right; right; right. split; eexists; reflexivity.
Defined.

Lemma py_val_eq_str_trans_lt (a b c : pyval) :
  py_val_eq a b = false -> py_val_lt a b = Returns true ->
  py_val_eq b c = false -> py_val_lt b c = Returns true ->
  py_val_eq a c = false /\ py_val_lt a c = Returns true.
Proof.
  destruct a, b; simpl; try discriminate;
    destruct c; simpl; try discriminate;
    intros E1 L1 E2 L2; injection L1 as L1'; injection L2 as L2'.
  1: { unfold String.ltb in *.
       destruct (String.compare s s0) eqn:C1; try discriminate.
       destruct (String.compare s0 s1) eqn:C2; try discriminate.
       pose proof (string_compare_lt_trans _ _ _ C1 C2) as C3. rewrite C3.
       split; [| reflexivity].
       apply bool_decide_eq_false_2. intros ->.
       assert (R : String.compare s1 s1 = Eq).
       { clear. induction s1 as [| x s1 IH]; simpl; [reflexivity |].
         unfold Ascii.compare. rewrite N.compare_refl. exact IH. }
       congruence. }
  all: repeat match goal with b : bool |- _ => destruct b end;
    apply bool_decide_eq_true_1 in L1';
    apply bool_decide_eq_true_1 in L2';
    (split; [apply bool_decide_eq_false_2 | f_equal; apply bool_decide_eq_true_2]);
    lia.
Qed.

(** X4.  The order `_compare_tokens` defines is transitive: if it puts
    t1 before t2 and t2 before t3, it puts t1 before t3. *)
Theorem compare_tokens_trans (t1 t2 t3 : pyval) :
  _compare_tokens t1 t2 = Returns (-1)%Z ->
  _compare_tokens t2 t3 = Returns (-1)%Z ->
  _compare_tokens t1 t3 = Returns (-1)%Z.
Proof.
  unfold _compare_tokens.
  destruct (is_none t1) eqn:N1, (is_none t2) eqn:N2, (is_none t3) eqn:N3;
    simpl; try discriminate; try reflexivity.
  destruct (py_val_eq t1 t2) eqn:E1; [discriminate |].
  destruct (py_val_lt t1 t2) as [[|] |] eqn:L1; try discriminate.
  destruct (py_val_eq t2 t3) eqn:E2; [discriminate |].
  destruct (py_val_lt t2 t3) as [[|] |] eqn:L2; try discriminate.
  intros _ _.
  destruct (py_val_eq_str_trans_lt _ _ _ E1 L1 E2 L2) as [E3 L3].
  rewrite E3, L3. reflexivity.
Qed.

Lemma compare_tokens_trans_witness :
  _compare_tokens PyNone (PyStr "a") = Returns (-1)%Z
  /\ _compare_tokens (PyStr "a") (PyStr "ab") = Returns (-1)%Z
  /\ _compare_tokens PyNone (PyStr "ab") = Returns (-1)%Z.
Proof.
  split; [reflexivity |]. split; [reflexivity |].
  apply (compare_tokens_trans PyNone (PyStr "a") (PyStr "ab")); reflexivity.
Defined.

(** X5.  `TwoGram._compare_token_pairs` reads the tokens through the
    inherited getters, which return `None`: it answers 0 for every two
    two-grams, whatever tokens they hold, and 1 for an argument that is
    not a two-gram. *)
Theorem compare_token_pairs_ignores_tokens (self other : TwoGram) :
  _compare_token_pairs self (Some other) = Returns 0%Z
  /\ _compare_token_pairs self None = Returns 1%Z.
Proof. split; reflexivity. Qed.

Lemma run_setter_typed (ty : pytype) (c : setter_call) (tg tg' : TwoGram) :
  tokens_typed ty tg -> run_setter c tg = Returns tg' -> tokens_typed ty tg'.
Proof.
  unfold tokens_typed.
  destruct tg as [o1 o2], c as [o | o]; simpl;
    unfold TwoGram_set_object1, TwoGram_set_object2; simpl;
    intros [H1 H2];
    destruct (is_none o) eqn:No; simpl.
  - intros E; inversion E; subst; simpl. destruct o; try discriminate. auto.
  - destruct (bool_decide_reflect (py_type o2 = py_type o)) as [Ty |];
      [| discriminate].
    intros E; inversion E; subst; simpl. split; [| assumption].
    destruct H2 as [-> | H2]; [| right; congruence].
    simpl in Ty. destruct o; discriminate.
  - intros E; inversion E; subst; simpl. destruct o; try discriminate. auto.
  - destruct (bool_decide_reflect (py_type o1 = py_type o)) as [Ty |];
      [| discriminate].
    intros E; inversion E; subst; simpl. split; [assumption |].
    destruct H1 as [-> | H1]; [| right; congruence].
    simpl in Ty. destruct o; discriminate.
Qed.

Lemma run_setters_typed (ty : pytype) (cs : list setter_call) (tg : TwoGram) :
  tokens_typed ty tg -> tokens_typed ty (run_setters cs tg).
Proof.
  revert tg. induction cs as [| c cs IH]; intros tg Ht; simpl; [assumption |].
  destruct (run_setter c tg) as [tg' |] eqn:E.
  - apply IH. exact (run_setter_typed ty c tg tg' Ht E).
  - apply IH. assumption.
Qed.

(** X6.  A two-gram keeps one token type for life: after construction
    there is a type such that, whatever assignments are made through the
    two setters, each slot holds `None` or a value of that type. *)
Theorem twogram_keeps_token_type (t1 t2 : pyval) (tg : TwoGram) :
  TwoGram__init__ t1 t2 = Returns tg ->
  exists ty, forall cs, tokens_typed ty (run_setters cs tg).
Proof.
  intros Hinit.
  assert (H0 : exists ty, tokens_typed ty tg).
  { unfold TwoGram__init__, Pair__init__ in Hinit.
    destruct (is_none t1) eqn:N1; simpl in Hinit.
    - inversion Hinit; subst. exists (py_type t2). split; simpl.
      + left. destruct t1; try discriminate. reflexivity.
      + right. reflexivity.
    - destruct (is_none t2) eqn:N2; simpl in Hinit.
      + inversion Hinit; subst. exists (py_type t1). split; simpl.
        * right. reflexivity.
        * left. destruct t2; try discriminate. reflexivity.
      + destruct (bool_decide_reflect (py_type t1 = py_type t2)) as [Ty |];
          [| discriminate].
        inversion Hinit; subst. exists (py_type t1). split; simpl; auto. }
  destruct H0 as [ty Hty]. exists ty. intros cs.
  apply run_setters_typed. assumption.
Qed.

Lemma twogram_keeps_token_type_witness :
  exists ty, forall cs,
    tokens_typed ty (run_setters cs (mkPair (PyStr "you") (PyStr "think"))).
Proof.
  apply (twogram_keeps_token_type (PyStr "you") (PyStr "think")). reflexivity.
Defined.

(** X7.  A two-gram with both slots `None` can never be filled: every
    assignment of another value raises, so after any sequence of
    assignments both slots are still `None`. *)
Theorem unset_twogram_stays_unset (cs : list setter_call) :
  run_setters cs (mkPair PyNone PyNone) = mkPair PyNone PyNone.
Proof.
  induction cs as [| c cs IH]; simpl; [reflexivity |].
  destruct c as [o | o]; simpl;
    unfold TwoGram_set_object1, TwoGram_set_object2; simpl;
    destruct o; simpl; exact IH.
Qed.

End FreqCompareFacts.

(* --------------------------------------------------------------------- *)
(*  Validation of the configuration                                       *)
(* --------------------------------------------------------------------- *)

Module OrbRunnerFacts.
Import OrbRunner.

Lemma printed_before_done {A : Type} (lines out : list string) (b : A)
    (r : outcome A * list string) :
  printed_before lines r = (Done b, out) ->
  exists out', r = (Done b, out') /\ out = (lines ++ out')%list.
Proof.
  destruct r as [o out']. unfold printed_before. simpl.
  intros E. inversion E; subst. eauto.
Qed.

Lemma validate_keys_silent (entries : jdict) :
  forall config sub is_valid b out,
    validate_keys config entries sub is_valid = (Done b, out) ->
    (b = true <-> is_valid = true /\ out = []).
Proof.
  apply (jdict_mut
           (fun schema => forall config sub b out,
                validate_config config schema sub = (Done b, out) ->
                (b = true <-> out = []))
           (fun entries => forall config sub is_valid b out,
                validate_keys config entries sub is_valid = (Done b, out) ->
                (b = true <-> is_valid = true /\ out = [])));
    try (intros; discriminate); clear entries.
  - (* a dictionary as schema *)
    intros d IHd config sub b out E. simpl in E.
    destruct (IHd _ _ _ _ _ E) as [H1 H2]. split.
    + intros Hb. apply H1 in Hb. tauto.
    + intros Ho. apply H2. auto.
  - (* no key left *)
    intros config sub is_valid b out E. simpl in E.
    inversion E; subst. tauto.
  - (* one key, then the others *)
    intros key value IHv rest IHr config sub is_valid b out E. simpl in E.
    destruct config as [ | | | | | cfg]; try discriminate E.
    destruct (dict_get cfg key) as [cval |].
    + destruct value as [ | | | | | sd];
        try (apply IHr in E; rewrite andb_true_r in E; exact E).
      destruct (validate_config cval (JDict sd) "sub") as [[b1 | msg] o1] eqn:Ev;
        [| discriminate E].
      apply printed_before_done in E as (out' & E & ->).
      apply IHr in E. apply IHv in Ev.
      rewrite andb_true_r in E.
      split.
      * intros Hb. apply E in Hb as [Hb ->].
        apply andb_true_iff in Hb as [Hi Hb1].
        apply Ev in Hb1 as ->. auto.
      * intros [Hi Ho]. apply app_eq_nil in Ho as [-> ->].
        apply E. split; [| reflexivity].
        rewrite Hi. simpl. apply Ev. reflexivity.
    + apply printed_before_done in E as (out' & E & ->).
      apply IHr in E. rewrite andb_false_r in E.
      split.
      * intros Hb. apply E in Hb as [Hb _]. discriminate.
      * intros [_ Ho]. discriminate.
Qed.

(** X8.  When `validate_config` returns, it returns True exactly when it
    printed nothing: every `False` comes with at least one line naming a
    missing key, and no line is printed for a configuration it accepts. *)
Theorem validate_config_true_iff_silent
    (config schema : json) (sub : string) (b : bool) (out : list string) :
  validate_config config schema sub = (Done b, out) ->
  (b = true <-> out = []).
Proof.
  destruct schema as [ | | | | | entries]; try discriminate.
  simpl. intros E. apply validate_keys_silent in E. tauto.
Qed.

Lemma validate_config_true_iff_silent_witness :
  validate_config (JDict config_with_number_options)
                  (JDict (DCons "seeds" (JList []) (DCons "debug" JNull DNil))) ""
  = (Done false, [missing_key_msg "" "debug"])
  /\ (false = true <-> [missing_key_msg "" "debug"] = []).
Proof.
  split; [reflexivity |].
  apply (validate_config_true_iff_silent
           (JDict config_with_number_options)
           (JDict (DCons "seeds" (JList []) (DCons "debug" JNull DNil))) "").
  reflexivity.
Defined.

Lemma validate_keys_flat (cfg entries : jdict) (sub : string) (is_valid : bool) :
  flat entries = true ->
  validate_keys (JDict cfg) entries sub is_valid
  = (Done (is_valid && forallb (has_key cfg) (dict_keys entries)),
     map (missing_key_msg sub)
         (List.filter (fun k => negb (has_key cfg k)) (dict_keys entries))).
Proof.
  revert is_valid.
  induction entries as [| key value rest IH]; intros is_valid Hf.
  - simpl. rewrite andb_true_r. reflexivity.
  - assert (Hrest : flat rest = true) by (destruct value; simpl in Hf; congruence).
    assert (Hv : forall d, value <> JDict d)
      by (intros d ->; simpl in Hf; discriminate).
    cbn [validate_keys dict_keys forallb List.filter]. unfold has_key at 1 3.
    destruct (dict_get cfg key) as [cval |] eqn:Eg.
    + rewrite bool_decide_eq_true_2 by eauto. simpl.
      destruct value; try (exfalso; eapply Hv; reflexivity);
        rewrite IH by assumption; rewrite andb_true_r; reflexivity.
    + rewrite bool_decide_eq_false_2 by (intros [x Hx]; discriminate). simpl.
      rewrite IH by assumption. unfold printed_before. simpl.
      rewrite andb_false_r. reflexivity.
Qed.

(** X9.  Against a schema without nested dictionaries, `validate_config`
    checks every key even after one was found missing: it returns whether
    all keys of the schema are in the configuration and prints one line
    per missing key, in the order of the schema.  The values stored under
    the keys are not looked at. *)
Theorem validate_config_flat_reports_all_missing
    (cfg entries : jdict) (sub : string) :
  flat entries = true ->
  validate_config (JDict cfg) (JDict entries) sub
  = (Done (forallb (has_key cfg) (dict_keys entries)),
     map (missing_key_msg sub)
         (List.filter (fun k => negb (has_key cfg k)) (dict_keys entries))).
Proof.
  intros Hf. cbn [validate_config]. rewrite validate_keys_flat by assumption.
  reflexivity.
Qed.

Lemma validate_config_flat_reports_all_missing_witness :
  validate_config (JDict (DCons "stopwords_lang" JNull DNil))
                  (JDict options_schema) "sub"
  = (Done false,
     [missing_key_msg "sub" "remove_stopwords"]).
Proof.
  apply (validate_config_flat_reports_all_missing
           (DCons "stopwords_lang" JNull DNil) options_schema "sub").
  reflexivity.
Defined.

Lemma validate_keys_raises (cfg entries : jdict) (k k2 : string)
    (v2 v : json) (r2 : jdict) (sub : string) (is_valid : bool) :
  dict_get entries k = Some (JDict (DCons k2 v2 r2)) ->
  dict_get cfg k = Some v -> (forall d, v <> JDict d) ->
  exists msg, fst (validate_keys (JDict cfg) entries sub is_valid)
              = AttributeError msg.
Proof.
  intros He Hc Hv. revert is_valid.
  induction entries as [| key value rest IH]; intros is_valid;
    [discriminate He |].
  cbn [dict_get] in He. cbn [validate_keys].
  destruct (bool_decide_reflect (key = k)) as [-> | Hne].
  - inversion He; subst. rewrite Hc.
    destruct v; try (exfalso; eapply Hv; reflexivity); simpl; eauto.
  - specialize (IH He).
    destruct (dict_get cfg key) as [cval |].
    + destruct value; try apply IH.
      destruct (validate_config cval (JDict d) "sub") as [[b1 | msg] o1];
        [| simpl; eauto].
      unfold printed_before. simpl. apply IH.
    + unfold printed_before. simpl. apply IH.
Qed.

(** X10.  `validate_config` does not return for a configuration in which
    a key that the schema describes by a non-empty dictionary holds a
    value that is not a dictionary: the nested call evaluates
    `config.keys()` on it and `AttributeError` leaves the function. *)
Theorem validate_config_raises_on_non_dict_section
    (cfg entries : jdict) (k k2 : string) (v2 v : json) (r2 : jdict)
    (sub : string) :
  dict_get entries k = Some (JDict (DCons k2 v2 r2)) ->
  dict_get cfg k = Some v -> (forall d, v <> JDict d) ->
  exists msg, fst (validate_config (JDict cfg) (JDict entries) sub)
              = AttributeError msg.
Proof.
  intros He Hc Hv. cbn [validate_config].
  exact (validate_keys_raises _ _ _ _ _ _ _ sub true He Hc Hv).
Qed.

Lemma validate_config_raises_on_non_dict_section_witness :
  exists msg,
    fst (validate_config (JDict config_with_number_options)
                         VALID_CONFIG_SCHEMA "")
    = AttributeError msg.
Proof.
  apply (validate_config_raises_on_non_dict_section
           config_with_number_options _ "options"
           "remove_stopwords" (JBool false) (JNum 5)
           (DCons "stopwords_lang" (JStr "") DNil) "").
  - reflexivity.
  - reflexivity.
  - intros d E. discriminate E.
Defined.

(** X11.  What a configuration accepted against `VALID_CONFIG_SCHEMA`
    has: the key "seeds", a dictionary "options" with "remove_stopwords"
    and "stopwords_lang", and a dictionary "agent_config" with
    "external", "encoding", "parser", "tags" and "debug"; and every
    configuration of that shape is accepted, whatever the values are. *)
Theorem valid_config_schema_accepts (cfg : jdict) :
  fst (validate_config (JDict cfg) VALID_CONFIG_SCHEMA "") = Done true
  <->
  has_key cfg "seeds" = true
  /\ (exists o, dict_get cfg "options" = Some (JDict o)
                /\ has_key o "remove_stopwords" = true
                /\ has_key o "stopwords_lang" = true)
  /\ (exists a, dict_get cfg "agent_config" = Some (JDict a)
                /\ has_key a "external" = true
                /\ has_key a "encoding" = true
                /\ has_key a "parser" = true
                /\ has_key a "tags" = true
                /\ has_key a "debug" = true).
Proof.
  unfold VALID_CONFIG_SCHEMA, options_schema, agent_config_schema, has_key.
  cbn [validate_config validate_keys].
  destruct (dict_get cfg "seeds") as [s |] eqn:Es;
    destruct (dict_get cfg "options") as [[ | | | | | o] |] eqn:Eo;
    destruct (dict_get cfg "agent_config") as [[ | | | | | a] |] eqn:Ea;
    cbn [validate_config validate_keys printed_before fst snd andb];
    repeat match goal with
           | |- context [dict_get ?d ?k] =>
               is_var d; destruct (dict_get d k) eqn:?
           end;
    cbn [validate_config validate_keys printed_before fst snd andb];
    (split;
     [ intros H; try discriminate H;
       repeat split; try (apply bool_decide_eq_true_2; eauto);
       eexists; (split; [reflexivity |]);
       repeat split; apply bool_decide_eq_true_2; eauto
     | intros (H1 & (o' & Ho & H2 & H3) & (a' & Ha & H4 & H5 & H6 & H7 & H8));
       try discriminate;
       repeat match goal with
              | H : Some _ = Some _ |- _ => inversion H; subst; clear H
              | H : bool_decide (is_Some ?x) = true |- _ =>
                  apply bool_decide_eq_true_1 in H; destruct H as [? H];
                  try congruence
              end;
       try reflexivity; try congruence ]).
Qed.

Lemma valid_config_schema_accepts_witness :
  fst (validate_config (JDict sample_config) VALID_CONFIG_SCHEMA "") = Done true.
Proof.
  apply (proj2 (valid_config_schema_accepts sample_config)).
  split; [reflexivity |]. split.
  - eexists. split; [reflexivity |]. split; reflexivity.
  - eexists. split; [reflexivity |]. repeat split; reflexivity.
Defined.

End OrbRunnerFacts.

(* --------------------------------------------------------------------- *)
(*  External links and the opening of pages                               *)
(* --------------------------------------------------------------------- *)

Module OrbOpenFacts.
Import SpiderModels OrbModels.

Lemma append_cons (c : Ascii.ascii) (a b : string) :
  String c a ++ b = String c (a ++ b).
Proof. reflexivity. Qed.

Lemma append_nil (b : string) : "" ++ b = b.
Proof. reflexivity. Qed.

Lemma prefix_spec (txt link : string) :
  String.prefix txt link = true <-> exists post, link = txt ++ post.
Proof.
  revert link. induction txt as [| c txt IH]; intros link.
  - destruct link; simpl; split; eauto.
  - destruct link as [| d link]; simpl.
    + split; [discriminate | intros [post E]; discriminate E].
    + destruct (Ascii.ascii_dec c d) as [-> | Hne].
      * rewrite IH. split; intros [post E]; exists post;
          rewrite append_cons in *; congruence.
      * split; [discriminate |].
        intros [post E]. rewrite append_cons in E. congruence.
Qed.

(** The substring test holds exactly of the strings that contain the
    text. *)
Lemma str_in_spec (txt link : string) :
  str_in txt link = true <-> exists pre post, link = pre ++ txt ++ post.
Proof.
  induction link as [| d link IH]; cbn [str_in].
  - rewrite orb_false_r, prefix_spec. split.
    + intros [post E]. exists "", post. exact E.
    + intros (pre & post & E). destruct pre as [| c pre].
      * rewrite append_nil in E. eauto.
      * rewrite append_cons in E. discriminate E.
  - rewrite orb_true_iff, prefix_spec, IH. split.
    + intros [[post E] | (pre & post & E)].
      * exists "", post. exact E.
      * exists (String d pre), post. rewrite append_cons. congruence.
    + intros (pre & post & E). destruct pre as [| c pre].
      * rewrite append_nil in E. left. eauto.
      * rewrite append_cons in E. right. exists pre, post. congruence.
Qed.

Section Agent.
Context {DocDB UriDB : Type}.
Variable fs_open : string -> string -> result TextIO.
Variable self : OrbAgent DocDB UriDB.
Variable w : world.

Lemma is_link_external_fold (link : string) (l : list string) (acc : bool) :
  foldl (fun is_external txt =>
           if str_in txt link then is_external || true else is_external) acc l
  = acc || existsb (fun txt => str_in txt link) l.
Proof.
  revert acc. induction l as [| txt l IH]; intros acc; simpl.
  - rewrite orb_false_r. reflexivity.
  - rewrite IH. destruct (str_in txt link), acc; reflexivity.
Qed.

Lemma is_link_external_spec (link : string) :
  is_link_external self link = true <->
  exists txt pre post,
    In txt (external (_config self)) /\ link = pre ++ txt ++ post.
Proof.
  unfold is_link_external. rewrite is_link_external_fold. simpl.
  rewrite existsb_exists. split.
  - intros (txt & Hin & Hs). apply str_in_spec in Hs as (pre & post & Hs).
    eauto 6.
  - intros (txt & pre & post & Hin & Hs). exists txt. split; [assumption |].
    apply str_in_spec. eauto.
Qed.

(** X12.  `is_link_external` answers True exactly for the links that
    contain one of the configured tokens as a substring.  With no token
    configured no link is external; a token that is the empty string
    makes every link external. *)
Theorem is_link_external_iff_contains_token (link : string) :
  (is_link_external self link = true <->
     exists txt pre post,
       In txt (external (_config self)) /\ link = pre ++ txt ++ post)
  /\ (external (_config self) = [] -> is_link_external self link = false)
  /\ (In "" (external (_config self)) -> is_link_external self link = true).
Proof.
  split; [exact (is_link_external_spec link) |]. split.
  - intros Hnil. unfold is_link_external. rewrite Hnil. reflexivity.
  - intros Hin. apply is_link_external_spec. exists "", "", link. auto.
Qed.

(** X13.  For an external URI, `_open_uri_as_file` returns `None`
    without calling `open` and without printing, whatever the file
    system holds and whether or not the debug flag is set. *)
Theorem external_uri_is_never_opened (txt pre post : string) :
  In txt (external (_config self)) ->
  _uri (agent_uri self) = pre ++ txt ++ post ->
  _open_uri_as_file fs_open self w = (Returns None, w).
Proof.
  intros Hin Hs. unfold _open_uri_as_file.
  assert (E : is_link_external self (_uri (agent_uri self)) = true).
  { apply is_link_external_spec. exists txt, pre, post. auto. }
  rewrite E. reflexivity.
Qed.

(** For a local URI that opens, `_open_uri_as_file` returns the
    file that `open` gave for the URI and the configured encoding, and
    prints nothing. *)
Theorem local_uri_is_opened (f : TextIO) :
  is_link_external self (_uri (agent_uri self)) = false ->
  fs_open (_uri (agent_uri self)) (encoding (_config self)) = Returns f ->
  _open_uri_as_file fs_open self w
  = (Returns (Some f),
     mkWorld (stderr w)
             (open_calls w ++ [(_uri (agent_uri self), encoding (_config self))])).
Proof. unfold _open_uri_as_file. intros -> ->. reflexivity. Qed.

(** X14.  Only `OSError` is caught: any other exception raised by `open`
    (an unknown encoding gives `LookupError`) leaves `_open_uri_as_file`,
    and nothing is printed. *)
Theorem other_exceptions_leave_open (e : exn) :
  is_link_external self (_uri (agent_uri self)) = false ->
  fs_open (_uri (agent_uri self)) (encoding (_config self)) = Raises e ->
  (forall msg, e <> OSError msg) ->
  fst (_open_uri_as_file fs_open self w) = Raises e
  /\ stderr (snd (_open_uri_as_file fs_open self w)) = stderr w.
Proof.
  unfold _open_uri_as_file. intros -> -> Hne.
  destruct e; try (split; reflexivity).
  exfalso. eapply Hne. reflexivity.
Qed.

(** X15.  When `open` raises `OSError` for a local URI whose properties
    are `None`, an empty dictionary, or hold a string under "parent",
    `_open_uri_as_file` returns `None`; it prints one report when the
    debug flag is set and nothing otherwise. *)
Theorem oserror_is_swallowed (msg : string) :
  is_link_external self (_uri (agent_uri self)) = false ->
  fs_open (_uri (agent_uri self)) (encoding (_config self))
    = Raises (OSError msg) ->
  (_props (agent_uri self) = None \/ _props (agent_uri self) = Some ∅ \/
   exists d s, _props (agent_uri self) = Some d
               /\ d !! "parent" = Some (PyStr s)) ->
  fst (_open_uri_as_file fs_open self w) = Returns None
  /\ exists tail,
       stderr (snd (_open_uri_as_file fs_open self w))
       = (stderr w ++ (if debug (_config self)
                       then [open_error_report tail msg] else []))%list.
Proof.
  unfold _open_uri_as_file. intros -> -> Hp. simpl.
  assert (Ht : exists tail,
             parent_tail (_props (agent_uri self)) = Returns tail).
  { destruct Hp as [-> | [-> | (d & s & -> & Hd)]]; unfold parent_tail; simpl.
    - eauto.
    - rewrite bool_decide_eq_true_2 by reflexivity. simpl. eauto.
    - rewrite Hd. simpl. destruct (negb (bool_decide (d = ∅))); eauto. }
  destruct Ht as [tail Ht]. rewrite Ht.
  destruct (debug (_config self)); simpl.
  - split; [reflexivity |]. exists tail. reflexivity.
  - split; [reflexivity |]. exists "". rewrite app_nil_r. reflexivity.
Qed.

(** X16.  `_open_uri_as_file` calls `open` at most once, and only for
    the URI of the agent with the configured encoding; what was printed
    before stays. *)
Theorem open_is_called_at_most_once :
  (open_calls (snd (_open_uri_as_file fs_open self w)) = open_calls w
   \/ open_calls (snd (_open_uri_as_file fs_open self w))
      = (open_calls w
         ++ [(_uri (agent_uri self), encoding (_config self))])%list)
  /\ exists printed,
       stderr (snd (_open_uri_as_file fs_open self w))
       = (stderr w ++ printed)%list.
Proof.
  unfold _open_uri_as_file.
  destruct (is_link_external self (_uri (agent_uri self))); simpl.
  - split; [left; reflexivity |]. exists []. rewrite app_nil_r. reflexivity.
  - destruct (fs_open (_uri (agent_uri self)) (encoding (_config self)))
      as [f | e]; simpl.
    + split; [right; reflexivity |]. exists []. rewrite app_nil_r. reflexivity.
    + destruct e; simpl;
        try (split; [right; reflexivity |]; exists [];
             rewrite app_nil_r; reflexivity).
      destruct (debug (_config self)); simpl.
      * destruct (parent_tail (_props (agent_uri self))); simpl;
          (split; [right; reflexivity |]); eexists;
          [reflexivity | rewrite app_nil_r; reflexivity].
      * split; [right; reflexivity |]. exists [].
        rewrite app_nil_r. reflexivity.
Qed.

End Agent.

Lemma is_link_external_iff_contains_token_witness :
  is_link_external agent_with_seed_uri "https://www.mikeryu.com" = true.
Proof.
  apply (proj2 (proj1 (is_link_external_iff_contains_token
                         agent_with_seed_uri "https://www.mikeryu.com"))).
  exists "https://", "", "www.mikeryu.com". split; [left |]; reflexivity.
Defined.

Lemma external_uri_is_never_opened_witness :
  _open_uri_as_file no_such_file
    (mkAgent unit OrbUriDB 3 (mkURI 3 "http://www.truth.info/download/bible.htm" None)
             tt ∅ test_config)
    empty_world
  = (Returns None, empty_world).
Proof.
  apply (external_uri_is_never_opened no_such_file _ empty_world
           "http://" "" "www.truth.info/download/bible.htm").
  - right; left; reflexivity.
  - reflexivity.
Defined.

Lemma local_uri_is_opened_witness :
  _open_uri_as_file (fun path enc => Returns (mkTextIO path enc))
    agent_with_seed_uri empty_world
  = (Returns (Some (mkTextIO "bad_uri.html" "UTF-8")),
     mkWorld [] [("bad_uri.html", "UTF-8")]).
Proof.
  apply (local_uri_is_opened (fun path enc => Returns (mkTextIO path enc))
           agent_with_seed_uri empty_world (mkTextIO "bad_uri.html" "UTF-8"));
    reflexivity.
Defined.

Lemma other_exceptions_leave_open_witness :
  fst (_open_uri_as_file
         (fun path enc => Raises (LookupError "unknown encoding"))
         agent_with_seed_uri empty_world)
  = Raises (LookupError "unknown encoding")
  /\ stderr (snd (_open_uri_as_file
                    (fun path enc => Raises (LookupError "unknown encoding"))
                    agent_with_seed_uri empty_world)) = [].
Proof.
  apply (other_exceptions_leave_open
           (fun path enc => Raises (LookupError "unknown encoding"))
           agent_with_seed_uri empty_world (LookupError "unknown encoding")).
  - reflexivity.
  - reflexivity.
  - intros msg E. discriminate E.
Defined.

Lemma oserror_is_swallowed_witness :
  fst (_open_uri_as_file no_such_file agent_with_seed_uri empty_world)
  = Returns None
  /\ exists tail,
       stderr (snd (_open_uri_as_file no_such_file agent_with_seed_uri empty_world))
       = [open_error_report tail
            "[Errno 2] No such file or directory: bad_uri.html"].
Proof.
  apply (oserror_is_swallowed no_such_file agent_with_seed_uri empty_world
           "[Errno 2] No such file or directory: bad_uri.html").
  - reflexivity.
  - reflexivity.
  - left. reflexivity.
Defined.

End OrbOpenFacts.

(* --------------------------------------------------------------------- *)
(*  String forms of URIs and agents                                       *)
(* --------------------------------------------------------------------- *)

Module SpiderStrFacts.
Import SpiderModels OrbModels SpiderStr.

Lemma substring_none (n : nat) (s : string) : String.substring n 0 s = "".
Proof.
  revert n. induction s as [| c s IH]; intros [| n]; simpl; auto.
Qed.

Lemma substring_whole (s : string) :
  String.substring 0 (String.length s) s = s.
Proof. induction s as [| c s IH]; simpl; [reflexivity | rewrite IH; reflexivity]. Qed.

Lemma length_append (a b : string) :
  String.length (a ++ b) = String.length a + String.length b.
Proof. induction a as [| c a IH]; simpl; [reflexivity | rewrite IH; reflexivity]. Qed.

(** The first [n] characters of a string that has at least [n]. *)
Lemma substring_head (n : nat) (s : string) :
  n <= String.length s ->
  String.length (String.substring 0 n s) = n
  /\ exists post, s = String.substring 0 n s ++ post.
Proof.
  revert n. induction s as [| c s IH]; intros [| n] Hn; simpl in *.
  - split; [reflexivity | exists ""; reflexivity].
  - lia.
  - split; [reflexivity | exists (String c s); reflexivity].
  - destruct (IH n ltac:(lia)) as [Hl [post Hp]]. split; [lia |].
    exists post. change (String c s = String c (String.substring 0 n s ++ post)).
    congruence.
Qed.

(** The last [n] characters of a string that has at least [n]. *)
Lemma substring_last (n : nat) (s : string) :
  n <= String.length s ->
  String.length (String.substring (String.length s - n) n s) = n
  /\ exists pre, s = pre ++ String.substring (String.length s - n) n s.
Proof.
  induction s as [| c s IH]; intros Hn; simpl in Hn.
  - assert (n = 0) as -> by lia. split; [reflexivity | exists ""; reflexivity].
  - destruct (Nat.eq_dec n (S (String.length s))) as [-> | Hne].
    + replace (String.length (String c s) - S (String.length s)) with 0
        by (simpl; lia).
      change (S (String.length s)) with (String.length (String c s)).
      rewrite substring_whole. split; [reflexivity | exists ""; reflexivity].
    + destruct (IH ltac:(lia)) as [Hl [pre Hp]].
      replace (String.length (String c s) - n)
        with (S (String.length s - n)) by (simpl; lia).
      simpl. split; [exact Hl |].
      exists (String c pre).
      change (String c s
              = String c (pre ++ String.substring (String.length s - n) n s)).
      congruence.
Qed.

Lemma slice_from_len (s : string) :
  py_slice_from (Z.of_nat (String.length s)) s = "".
Proof.
  unfold py_slice_from.
  replace (Z.of_nat (String.length s) <? 0)%Z with false
    by (symmetry; apply Z.ltb_ge; lia).
  rewrite Z.min_id, Nat2Z.id, Nat.sub_diag. apply substring_none.
Qed.

Lemma slice_from_minus (n : nat) (s : string) :
  0 < n -> n <= String.length s ->
  py_slice_from (- Z.of_nat n) s
  = String.substring (String.length s - n) n s.
Proof.
  intros Hpos Hn. unfold py_slice_from.
  replace (- Z.of_nat n <? 0)%Z with true
    by (symmetry; apply Z.ltb_lt; lia).
  replace (Z.to_nat (Z.max (Z.of_nat (String.length s) + - Z.of_nat n) 0))
    with (String.length s - n) by lia.
  f_equal. lia.
Qed.

Lemma slice_to_len (s : string) :
  py_slice_to (Z.of_nat (String.length s)) s = s.
Proof.
  unfold py_slice_to.
  replace (Z.of_nat (String.length s) <? 0)%Z with false
    by (symmetry; apply Z.ltb_ge; lia).
  rewrite Z.min_id, Nat2Z.id. apply substring_whole.
Qed.

Lemma slice_to_short (n : nat) (s : string) :
  n <= String.length s ->
  py_slice_to (Z.of_nat n) s = String.substring 0 n s.
Proof.
  intros Hn. unfold py_slice_to.
  replace (Z.of_nat n <? 0)%Z with false by (symmetry; apply Z.ltb_ge; lia).
  rewrite Z.min_l by lia. rewrite Nat2Z.id. reflexivity.
Qed.

(** X17.  The string form of a URI shorter than 20 characters does not
    show the URI at all: the slice `uri[len(uri):]` is empty, so the text
    is the instance id, four spaces and the type, the same for every such
    URI with that id. *)
Theorem short_uri_str_omits_uri (type_str : string) (u : SpiderURI) :
  String.length (_uri u) < TRUNCATION_THRESHOLD ->
  SpiderURI__str__ type_str u
  = "[" ++ format_09d (uri_iid u) ++ "]:      " ++ type_str.
Proof.
  intros Hlen. unfold SpiderURI__str__.
  replace (TRUNCATION_THRESHOLD <=? String.length (_uri u))%nat with false
    by (symmetry; apply Nat.leb_gt; exact Hlen).
  rewrite slice_from_len. reflexivity.
Qed.

Lemma short_uri_str_omits_uri_witness :
  SpiderURI__str__ OrbURI_type_str uri_a
  = "[000000001]:      <class 'spider.orb.orb_models.OrbURI'>".
Proof.
  apply (short_uri_str_omits_uri OrbURI_type_str uri_a).
  unfold TRUNCATION_THRESHOLD. simpl. lia.
Defined.

(** X18.  The string form of a URI of 20 characters or more shows three
    dots and then exactly the last 20 characters of the URI. *)
Theorem long_uri_str_shows_tail (type_str : string) (u : SpiderURI) :
  TRUNCATION_THRESHOLD <= String.length (_uri u) ->
  exists pre tail,
    _uri u = pre ++ tail
    /\ String.length tail = TRUNCATION_THRESHOLD
    /\ SpiderURI__str__ type_str u
       = "[" ++ format_09d (uri_iid u) ++ "]: ..." ++ tail ++ " " ++ type_str.
Proof.
  intros Hlen. unfold SpiderURI__str__.
  replace (TRUNCATION_THRESHOLD <=? String.length (_uri u))%nat with true
    by (symmetry; apply Nat.leb_le; exact Hlen).
  rewrite slice_from_minus by (unfold TRUNCATION_THRESHOLD in *; lia).
  destruct (substring_last TRUNCATION_THRESHOLD (_uri u) Hlen) as [Hl [pre Hp]].
  exists pre, (String.substring (String.length (_uri u) - TRUNCATION_THRESHOLD)
                 TRUNCATION_THRESHOLD (_uri u)).
  split; [exact Hp |]. split; [exact Hl |]. reflexivity.
Qed.

Lemma long_uri_str_shows_tail_witness :
  exists pre tail,
    "https://fake-uri.com/some/page/that/is/fake" = pre ++ tail
    /\ String.length tail = TRUNCATION_THRESHOLD
    /\ SpiderURI__str__ OrbURI_type_str
         (mkURI 7 "https://fake-uri.com/some/page/that/is/fake" None)
       = "[" ++ format_09d 7 ++ "]: ..." ++ tail ++ " " ++ OrbURI_type_str.
Proof.
  apply (long_uri_str_shows_tail OrbURI_type_str
           (mkURI 7 "https://fake-uri.com/some/page/that/is/fake" None)).
  unfold TRUNCATION_THRESHOLD. simpl. lia.
Defined.

(** The string the URI test of the repository expects. *)
Example uri_str_test :
  SpiderURI__str__ OrbURI_type_str
    (mkURI 7 "https://fake-uri.com/some/page/that/is/fake" None)
  = "[000000007]: ...me/page/that/is/fake <class 'spider.orb.orb_models.OrbURI'>".
Proof. reflexivity. Qed.

(** X19.  The string form of an agent shows the URI in full when it is
    shorter than 20 characters, and otherwise exactly its first 20
    characters followed by " ...". *)
Theorem agent_str_shows_head {DocDB UriDB : Type} (type_str : string)
    (a : OrbAgent DocDB UriDB) :
  (String.length (_uri (agent_uri a)) < TRUNCATION_THRESHOLD ->
   SpiderAgent__str__ type_str a
   = "[" ++ format_09d (agent_iid a) ++ "]: " ++ _uri (agent_uri a)
     ++ "     " ++ type_str)
  /\ (TRUNCATION_THRESHOLD <= String.length (_uri (agent_uri a)) ->
      exists head post,
        _uri (agent_uri a) = head ++ post
        /\ String.length head = TRUNCATION_THRESHOLD
        /\ SpiderAgent__str__ type_str a
           = "[" ++ format_09d (agent_iid a) ++ "]: " ++ head
             ++ " ... " ++ type_str).
Proof.
  unfold SpiderAgent__str__. split; intros Hlen.
  - replace (TRUNCATION_THRESHOLD <=? String.length (_uri (agent_uri a)))%nat
      with false by (symmetry; apply Nat.leb_gt; exact Hlen).
    rewrite slice_to_len. reflexivity.
  - replace (TRUNCATION_THRESHOLD <=? String.length (_uri (agent_uri a)))%nat
      with true by (symmetry; apply Nat.leb_le; exact Hlen).
    rewrite slice_to_short by exact Hlen.
    destruct (substring_head TRUNCATION_THRESHOLD _ Hlen) as [Hl [post Hp]].
    exists (String.substring 0 TRUNCATION_THRESHOLD (_uri (agent_uri a))), post.
    split; [exact Hp |]. split; [exact Hl |]. reflexivity.
Qed.

Lemma agent_str_shows_head_witness :
  SpiderAgent__str__ "<class 'spider.orb.orb_models.OrbAgent'>" agent_with_seed_uri
  = "[000000002]: bad_uri.html     <class 'spider.orb.orb_models.OrbAgent'>".
Proof.
  apply (proj1 (agent_str_shows_head
                  "<class 'spider.orb.orb_models.OrbAgent'>" agent_with_seed_uri)).
  unfold TRUNCATION_THRESHOLD. simpl. lia.
Defined.

End SpiderStrFacts.

(* --------------------------------------------------------------------- *)
(*  Documents over their lifetime                                         *)
(* --------------------------------------------------------------------- *)

Module SpiderDocLifeFacts.
Import SpiderModels SpiderDocLife.

Section Life.
Context {FP : Type}.
Variable fp_eq : FP -> FP -> bool.
Variable fp_hash : FP -> Z.
Variable none_hash : Z.
Variable compute_fp : string -> FP.

Local Abbreviation doc_inv := (doc_inv compute_fp).

Lemma fingerprint_inv k c t (d : SpiderDoc FP) :
  doc_inv k c t d ->
  fst (fst (fingerprint compute_fp d)) = Some (compute_fp c)
  /\ doc_inv k c t (snd (fst (fingerprint compute_fp d)))
  /\ _fingerprint (snd (fst (fingerprint compute_fp d))) = Some (compute_fp c).
Proof.
  intros (Hi & Ht & Hc & Hf). unfold fingerprint, SpiderDocLife.doc_inv.
  destruct Hf as [Hf | Hf]; rewrite Hf; simpl; rewrite ?Hc; auto 10.
Qed.

Lemma run_op_inv k c t (op : doc_op) (d : SpiderDoc FP) :
  doc_inv k c t d ->
  doc_inv k c t (fst (run_op fp_eq fp_hash none_hash compute_fp op d)).
Proof.
  intros Hd. destruct (fingerprint_inv k c t d Hd) as (Hv & Hd' & _).
  destruct op; simpl; try assumption;
    unfold SpiderDoc__hash__;
    destruct (fingerprint compute_fp d) as [[v d'] n]; simpl in *; assumption.
Qed.

Lemma run_ops_inv k c t (ops : list doc_op) (d : SpiderDoc FP) :
  doc_inv k c t d ->
  doc_inv k c t (fst (run_ops fp_eq fp_hash none_hash compute_fp ops d)).
Proof.
  revert d. induction ops as [| op ops IH]; intros d Hd; simpl; [assumption |].
  pose proof (run_op_inv k c t op d Hd) as H1.
  destruct (run_op fp_eq fp_hash none_hash compute_fp op d) as [d1 n1].
  specialize (IH d1 H1).
  destruct (run_ops fp_eq fp_hash none_hash compute_fp ops d1) as [d2 n2].
  exact IH.
Qed.

(** X20.  Over the whole life of a document its hash is the hash of the
    fingerprint of its content: after any sequence of operations since
    construction, `hash(d)` is the same value, the id, title and content
    are those given to the constructor, and two documents with the same
    content have the same hash. *)
Theorem doc_hash_is_stable (k : Z) (c : string) (t : option string)
    (ops : list doc_op) :
  let d := fst (run_ops fp_eq fp_hash none_hash compute_fp ops
                  (fst (SpiderDoc__init__ k c t))) in
  fst (fst (SpiderDoc__hash__ fp_hash none_hash compute_fp d))
    = fp_hash (compute_fp c)
  /\ doc_iid d = (k + 1)%Z /\ _title d = t /\ _content d = c.
Proof.
  intros d.
  assert (Hd : doc_inv k c t d).
  { apply run_ops_inv. unfold SpiderDocLife.doc_inv. simpl. auto. }
  destruct (fingerprint_inv k c t d Hd) as (Hv & _ & _).
  destruct Hd as (Hi & Ht & Hc & _).
  unfold SpiderDoc__hash__.
  destruct (fingerprint compute_fp d) as [[v d'] n]. simpl in *.
  rewrite Hv. auto.
Qed.

(** X21.  A comparison `a == b` of two documents always leaves the
    fingerprint of the right operand cached, computing it when it was
    not; compared with `None` or with an object that is not a document
    the answer is False and nothing is computed. *)
Theorem doc_eq_caches_right_operand (a b : SpiderDoc FP) :
  (exists b' v,
      snd (fst (SpiderDoc__eq__ fp_eq compute_fp a (Some b))) = Some b'
      /\ _fingerprint b' = Some v
      /\ _content b' = _content b /\ doc_iid b' = doc_iid b
      /\ _title b' = _title b
      /\ snd (SpiderDoc__eq__ fp_eq compute_fp a (Some b))
         = match _fingerprint b with Some _ => 0 | None => 1 end)
  /\ SpiderDoc__eq__ fp_eq compute_fp a None = (false, None, 0).
Proof.
  split; [| reflexivity].
  unfold SpiderDoc__eq__, fingerprint.
  destruct (_fingerprint b) as [v |] eqn:E; simpl.
  - exists b, v. auto 10.
  - eexists _, _. repeat split; reflexivity.
Qed.

End Life.

End SpiderDocLifeFacts.
